(** * Binance-Trading-Bot: the quantity formatter and the order builder

  A shallow embedding of [src/bot.py] (class [BasicBot]) together with the
  Python built-ins it relies on:

  - [str.upper], [str.rstrip], [str.split], [in] on ASCII strings;
  - [float] as IEEE-754 binary64 with exact integer arithmetic:
    [float(str)], [str(float)] (shortest round-trip repr) and the
    fixed-point format [f"{x:.{p}f}"];
  - [decimal.Decimal] with the default context (28 digits) and
    [quantize(..., rounding=ROUND_DOWN)];
  - the exchange client as a record of responses, with every call and every
    log line recorded in a trace. *)

From Stdlib Require Import ZArith Lia Ascii.
From stdpp Require Import base strings gmap.

Local Open Scope Z_scope.

(** ** Strings *)

Module PyStr.

Definition is_lower (a : ascii) : bool :=
  let n := nat_of_ascii a in (97 <=? n)%nat && (n <=? 122)%nat.

Definition is_upper (a : ascii) : bool :=
  let n := nat_of_ascii a in (65 <=? n)%nat && (n <=? 90)%nat.

Definition is_digit (a : ascii) : bool :=
  let n := nat_of_ascii a in (48 <=? n)%nat && (n <=? 57)%nat.

(** Python's whitespace, as far as it lives in ASCII:
    space, [\t], [\n], [\v], [\f], [\r] and the separators 28..31. *)
Definition is_space (a : ascii) : bool :=
  let n := nat_of_ascii a in
  (n =? 32)%nat || ((9 <=? n)%nat && (n <=? 13)%nat)
  || ((28 <=? n)%nat && (n <=? 31)%nat).

Definition upper_char (a : ascii) : ascii :=
  if is_lower a then ascii_of_nat (nat_of_ascii a - 32) else a.

Definition lower_char (a : ascii) : ascii :=
  if is_upper a then ascii_of_nat (nat_of_ascii a + 32) else a.

(** [s.upper()] on ASCII text. *)
Fixpoint upper (s : string) : string :=
  match s with
  | EmptyString => EmptyString
  | String a s' => String (upper_char a) (upper s')
  end.

Fixpoint lower (s : string) : string :=
  match s with
  | EmptyString => EmptyString
  | String a s' => String (lower_char a) (lower s')
  end.

Definition is_empty (s : string) : bool :=
  match s with EmptyString => true | _ => false end.

(** [c in s] for a one-character [c]. *)
Fixpoint contains (c : ascii) (s : string) : bool :=
  match s with
  | EmptyString => false
  | String a s' => Ascii.eqb a c || contains c s'
  end.

(** [s.split(c)[-1]]: what follows the last [c], all of [s] without [c]. *)
Fixpoint split_last (c : ascii) (s : string) : string :=
  match s with
  | EmptyString => EmptyString
  | String a s' =>
      if contains c s' then split_last c s'
      else if Ascii.eqb a c then s' else s
  end.

(** [s.rstrip(c)]. *)
Fixpoint rstrip (c : ascii) (s : string) : string :=
  match s with
  | EmptyString => EmptyString
  | String a s' =>
      let r := rstrip c s' in
      if is_empty r && Ascii.eqb a c then EmptyString else String a r
  end.

Fixpoint lstrip_space (s : string) : string :=
  match s with
  | String a s' => if is_space a then lstrip_space s' else s
  | EmptyString => EmptyString
  end.

Fixpoint rstrip_space (s : string) : string :=
  match s with
  | EmptyString => EmptyString
  | String a s' =>
      let r := rstrip_space s' in
      if is_empty r && is_space a then EmptyString else String a r
  end.

(** [s.strip()]. *)
Definition strip (s : string) : string := rstrip_space (lstrip_space s).

Fixpoint all_digits (s : string) : bool :=
  match s with
  | EmptyString => true
  | String a s' => is_digit a && all_digits s'
  end.

Fixpoint last_char (s : string) : option ascii :=
  match s with
  | EmptyString => None
  | String a EmptyString => Some a
  | String _ s' => last_char s'
  end.

(** Cut [s] at the first character satisfying [p]: the text before it and,
    when there is one, the text after it. *)
Fixpoint cut (p : ascii -> bool) (s : string) : string * option string :=
  match s with
  | EmptyString => (EmptyString, None)
  | String a s' =>
      if p a then (EmptyString, Some s')
      else let '(l, r) := cut p s' in (String a l, r)
  end.

Fixpoint repeat (a : ascii) (n : nat) : string :=
  match n with
  | O => EmptyString
  | S n' => String a (repeat a n')
  end.

Definition digit_char (d : Z) : ascii := ascii_of_nat (48 + Z.to_nat d).

Definition digit_val (a : ascii) : Z := Z.of_nat (nat_of_ascii a) - 48.

Fixpoint digits_fuel (fuel : nat) (n : Z) (acc : string) : string :=
  match fuel with
  | O => acc
  | S fuel' =>
      let acc' := String (digit_char (n mod 10)) acc in
      if n <? 10 then acc' else digits_fuel fuel' (n / 10) acc'
  end.

(** The decimal digits of a natural number, ["0"] for zero. *)
Definition of_Z (n : Z) : string :=
  digits_fuel (S (Z.to_nat (Z.log2 n))) n EmptyString.

(** The number written by a string of digits (the empty string reads 0). *)
Fixpoint to_Z_acc (s : string) (acc : Z) : Z :=
  match s with
  | EmptyString => acc
  | String a s' => to_Z_acc s' (10 * acc + digit_val a)
  end.

Definition to_Z (s : string) : Z := to_Z_acc s 0.

Definition len (s : string) : Z := Z.of_nat (String.length s).

End PyStr.

(** ** Python floats: IEEE-754 binary64 *)

Module PyFloat.
Import PyStr.

(** A finite float is [(-1)^neg * m * 2^e] with [0 <= m < 2^53] and
    [emin <= e <= emax], normalised: [2^52 <= m] unless [e = emin]. *)
Inductive float : Type :=
| Finite (neg : bool) (m e : Z)
| Inf (neg : bool)
| NaN.

Definition emin : Z := -1074.
Definition emax : Z := 971.

Definition eqb (x y : float) : bool :=
  match x, y with
  | Finite n1 m1 e1, Finite n2 m2 e2 =>
      Bool.eqb n1 n2 && (m1 =? m2) && (e1 =? e2)
  | Inf n1, Inf n2 => Bool.eqb n1 n2
  | NaN, NaN => true
  | _, _ => false
  end.

Definition is_finite (x : float) : bool :=
  match x with Finite _ _ _ => true | _ => false end.

(** Round [q + r/d] (with [0 <= r < d]) to the nearest integer, ties to even. *)
Definition round_half_even (q r d : Z) : Z :=
  match 2 * r ?= d with
  | Lt => q
  | Gt => q + 1
  | Eq => if Z.even q then q else q + 1
  end.

(** Quotient, remainder and divisor of [n / (d * 2^e)]. *)
Definition div_pow2 (n d e : Z) : Z * Z * Z :=
  if 0 <=? e then let dd := d * 2 ^ e in (n / dd, n mod dd, dd)
  else let nn := n * 2 ^ (- e) in (nn / d, nn mod d, d).

(** Quotient, remainder and divisor of [n / (d * 10^s)]. *)
Definition div_pow10 (n d s : Z) : Z * Z * Z :=
  if 0 <=? s then let dd := d * 10 ^ s in (n / dd, n mod dd, dd)
  else let nn := n * 10 ^ (- s) in (nn / d, nn mod d, d).

(** The binary64 nearest to [n / d] (ties to even), for [0 <= n], [0 < d]. *)
Definition of_ratio (neg : bool) (n d : Z) : float :=
  if n =? 0 then Finite neg 0 emin
  else
    let e0 := Z.log2 n - Z.log2 d - 52 in
    let '(q0, _, _) := div_pow2 n d e0 in
    let e1 := if q0 <? 2 ^ 52 then e0 - 1 else e0 in
    let e := Z.max e1 emin in
    let '(q, r, dd) := div_pow2 n d e in
    let m := round_half_even q r dd in
    let '(m', e') := if m =? 2 ^ 53 then (2 ^ 52, e + 1) else (m, e) in
    if emax <? e' then Inf neg else Finite neg m' e'.

(** The binary64 nearest to [c * 10^e10]. *)
Definition of_decimal (neg : bool) (c e10 : Z) : float :=
  if 0 <=? e10 then of_ratio neg (c * 10 ^ e10) 1
  else of_ratio neg c (10 ^ (- e10)).

(** The exact value [m * 2^e] as a fraction. *)
Definition ratio (m e : Z) : Z * Z :=
  if 0 <=? e then (m * 2 ^ e, 1) else (m, 2 ^ (- e)).

(** *** Numeric literals, as [float(s)] and [Decimal(s)] read them *)

Inductive literal : Type :=
| LNum (neg : bool) (c e10 : Z)
| LInf (neg : bool)
| LNaN (neg : bool).

Definition parse_sign (s : string) : bool * string :=
  match s with
  | String "-" s' => (true, s')
  | String "+" s' => (false, s')
  | _ => (false, s)
  end.

Definition is_exp_marker (a : ascii) : bool :=
  Ascii.eqb a "e" || Ascii.eqb a "E".

Definition parse_exponent (s : string) : option Z :=
  let '(neg, ds) := parse_sign s in
  if is_empty ds || negb (all_digits ds) then None
  else Some (if neg then - to_Z ds else to_Z ds).

(** [digits [. digits] [e [sign] digits]] with a digit on one side of the
    point at least: the coefficient and the power of ten. *)
Definition parse_number (s : string) : option (Z * Z) :=
  let '(mant, ex) := cut is_exp_marker s in
  let '(ip, fpo) := cut (Ascii.eqb ".") mant in
  let fp := default EmptyString fpo in
  if (is_empty ip && is_empty fp) || negb (all_digits ip)
     || negb (all_digits fp)
  then None
  else
    match ex with
    | None => Some (to_Z (ip +:+ fp), - len fp)
    | Some es =>
        match parse_exponent es with
        | None => None
        | Some e => Some (to_Z (ip +:+ fp), e - len fp)
        end
    end.

(** Surrounding whitespace is dropped; [inf], [infinity] and [nan] are read
    in any case.  Digit-group underscores (PEP 515) are not part of the
    model: such a literal is rejected here. *)
Definition parse_literal (s : string) : option literal :=
  let '(neg, body) := parse_sign (strip s) in
  let low := lower body in
  if String.eqb low "inf" || String.eqb low "infinity" then Some (LInf neg)
  else if String.eqb low "nan" then Some (LNaN neg)
  else
    match parse_number body with
    | Some (c, e) => Some (LNum neg c e)
    | None => None
    end.

Definition of_literal (l : literal) : float :=
  match l with
  | LNum neg c e => of_decimal neg c e
  | LInf neg => Inf neg
  | LNaN _ => NaN
  end.

(** [float(s)]: [None] stands for [ValueError]. *)
Definition of_string (s : string) : option float :=
  match parse_literal s with
  | Some l => Some (of_literal l)
  | None => None
  end.

(** *** [str(x)]: the shortest digits that read back as [x] *)

Definition num_digits (n : Z) : Z := len (of_Z n).

(** [floor (log10 (n / d))] for positive [n] and [d]. *)
Definition ilog10 (n d : Z) : Z :=
  if d <=? n then num_digits (n / d) - 1
  else
    let j := num_digits (d / n) - 1 in
    if d <=? n * 10 ^ j then - j else - (j + 1).

(** With [nd] significant digits: the two neighbours of [n / d] on the grid
    [10^s], [s = k - nd + 1]; the one that reads back as [x], the nearer
    one when both do. *)
Definition shortest_try (x : float) (n d k nd : Z) : option (Z * Z) :=
  let s := k - nd + 1 in
  let '(lo, r, dd) := div_pow10 n d s in
  let hi := lo + 1 in
  match eqb (of_decimal false lo s) x, eqb (of_decimal false hi s) x with
  | true, true => Some (round_half_even lo r dd, s)
  | true, false => Some (lo, s)
  | false, true => Some (hi, s)
  | false, false => None
  end.

(** Seventeen digits always read back: the search stops there. *)
Fixpoint shortest_search (fuel : nat) (x : float) (n d k nd : Z) : Z * Z :=
  match fuel with
  | O =>
      let s := k - nd + 1 in
      let '(lo, r, dd) := div_pow10 n d s in
      (round_half_even lo r dd, s)
  | S fuel' =>
      match shortest_try x n d k nd with
      | Some cs => cs
      | None => shortest_search fuel' x n d k (nd + 1)
      end
  end.

Fixpoint strip_zeros (fuel : nat) (c s : Z) : Z * Z :=
  match fuel with
  | O => (c, s)
  | S fuel' =>
      if (c mod 10 =? 0) && (0 <? c) then strip_zeros fuel' (c / 10) (s + 1)
      else (c, s)
  end.

(** The shortest decimal [c * 10^s] of a positive finite float. *)
Definition shortest (m e : Z) : Z * Z :=
  let '(n, d) := ratio m e in
  let k := ilog10 n d in
  let '(c, s) := shortest_search 16 (Finite false m e) n d k 1 in
  strip_zeros 17 c s.

Definition sign_str (neg : bool) : string :=
  if neg then "-" else "".

Definition exp_str (e10 : Z) : string :=
  let ds := of_Z (Z.abs e10) in
  String "e"
    ((if e10 <? 0 then "-" else "+")
       +:+ (if len ds <? 2 then "0" +:+ ds else ds)).

(** Python's layout of the repr digits: exponent notation when the decimal
    point falls more than four places left of the digits or more than
    sixteen places right of their start; [.0] added to whole numbers. *)
Definition repr_layout (ds : string) (decpt : Z) : string :=
  let nd := len ds in
  if (decpt <=? -4) || (16 <? decpt) then
    match ds with
    | String a EmptyString => String a (exp_str (decpt - 1))
    | String a rest => String a ("." +:+ rest +:+ exp_str (decpt - 1))
    | EmptyString => EmptyString
    end
  else if decpt <=? 0 then
    "0." +:+ repeat "0" (Z.to_nat (- decpt)) +:+ ds
  else if nd <=? decpt then
    ds +:+ repeat "0" (Z.to_nat (decpt - nd)) +:+ ".0"
  else
    String.substring 0 (Z.to_nat decpt) ds +:+ "."
      +:+ String.substring (Z.to_nat decpt) (Z.to_nat (nd - decpt)) ds.

(** [str(x)] and [repr(x)]. *)
Definition repr (x : float) : string :=
  match x with
  | NaN => "nan"
  | Inf neg => sign_str neg +:+ "inf"
  | Finite neg m e =>
      if m =? 0 then sign_str neg +:+ "0.0"
      else
        let '(c, s) := shortest m e in
        let ds := of_Z c in
        sign_str neg +:+ repr_layout ds (len ds + s)
  end.

(** *** [f"{x:.{p}f}"] *)

(** The [p] low decimal digits of [v], in front of [acc]. *)
Fixpoint frac_digits (p : nat) (v : Z) (acc : string) : string :=
  match p with
  | O => acc
  | S p' => frac_digits p' (v / 10) (String (digit_char (v mod 10)) acc)
  end.

(** The exact value, times [10^p], rounded to an integer (ties to even). *)
Definition scaled_round (m e : Z) (p : nat) : Z :=
  let '(n, d) := ratio m e in
  let nn := n * 10 ^ Z.of_nat p in
  round_half_even (nn / d) (nn mod d) d.

Definition format_f (x : float) (p : nat) : string :=
  match x with
  | NaN => "nan"
  | Inf neg => sign_str neg +:+ "inf"
  | Finite neg m e =>
      let r := scaled_round m e p in
      sign_str neg +:+ of_Z (r / 10 ^ Z.of_nat p)
        +:+ match p with
            | O => EmptyString
            | S _ => String "." (frac_digits p r EmptyString)
            end
  end.

End PyFloat.

(** ** [decimal.Decimal] under the default context *)

Module PyDecimal.
Import PyStr.

(** [Fin neg c e] is [(-1)^neg * c * 10^e]; the coefficient keeps its
    trailing zeros, as [Decimal] does. *)
Inductive decimal : Type :=
| Fin (neg : bool) (coeff exp : Z)
| Infinity (neg : bool)
| QNaN (neg : bool).

(** [getcontext()]: [prec=28], [Emax=999999], [Emin=-999999]. *)
Definition prec : Z := 28.
Definition Emax : Z := 999999.
Definition Etiny : Z := -999999 - prec + 1.

(** [Decimal(s)]: exact, no rounding; [None] stands for
    [InvalidOperation] (conversion syntax). *)
Definition of_string (s : string) : option decimal :=
  match PyFloat.parse_literal s with
  | Some (PyFloat.LNum neg c e) => Some (Fin neg c e)
  | Some (PyFloat.LInf neg) => Some (Infinity neg)
  | Some (PyFloat.LNaN neg) => Some (QNaN neg)
  | None => None
  end.

(** [d.adjusted()]: the exponent of the leading digit. *)
Definition adjusted (c e : Z) : Z := e + PyFloat.num_digits c - 1.

(** The coefficient at exponent [target], digits beyond it dropped
    ([ROUND_DOWN]). *)
Definition rescale_down (c e target : Z) : Z :=
  if target <=? e then c * 10 ^ (e - target) else c / 10 ^ (target - e).

(** [a.quantize(b, rounding=ROUND_DOWN)]: [a] at the exponent of [b].
    [None] stands for [InvalidOperation]. *)
Definition quantize_down (a b : decimal) : option decimal :=
  match a, b with
  | QNaN n, _ => Some (QNaN n)
  | _, QNaN n => Some (QNaN n)
  | Infinity n, Infinity _ => Some (Infinity n)
  | Infinity _, Fin _ _ _ => None
  | Fin _ _ _, Infinity _ => None
  | Fin neg c e, Fin _ _ t =>
      if negb ((Etiny <=? t) && (t <=? Emax)) then None
      else if c =? 0 then Some (Fin neg 0 t)
      else if Emax <? adjusted c e then None
      else if prec <? adjusted c e - t + 1 then None
      else
        let c' := rescale_down c e t in
        if Emax <? adjusted c' t then None
        else if prec <? PyFloat.num_digits c' then None
        else Some (Fin neg c' t)
  end.

(** [float(d)]. *)
Definition to_float (d : decimal) : PyFloat.float :=
  match d with
  | Fin neg c e => PyFloat.of_decimal neg c e
  | Infinity neg => PyFloat.Inf neg
  | QNaN _ => PyFloat.NaN
  end.

End PyDecimal.

(** ** The bot *)

Module Bot.
Import PyStr.

Inductive exn : Type :=
| ValueError (msg : string)
| KeyError (key : string)
| InvalidOperation
| BinanceAPIException (code : Z) (msg : string)
| TransportError (msg : string).

Inductive level : Type := DEBUG | INFO | ERROR.

(** The keyword arguments of [client.futures_create_order]. *)
Record order_request : Type := {
  o_symbol : string;
  o_side : string;
  o_type : string;
  o_quantity : string;
  o_price : option string;
  o_stopPrice : option string;
  o_timeInForce : option string
}.

(** The exchange's answer to an order call; the bot reads [orderId]. *)
Record order : Type := { orderId : Z }.

(** An entry of [exchange_info['symbols']]: its name and its filters, each
    filter a dictionary of strings. *)
Record symbol_info : Type := {
  si_symbol : string;
  si_filters : list (gmap string string)
}.

(** The exchange client: what each call answers, or the exception it
    raises. *)
Record Client : Type := {
  futures_exchange_info : exn + list symbol_info;
  futures_symbol_ticker : string -> exn + string;
  futures_create_order : order_request -> exn + order;
  futures_cancel_order : string -> Z -> exn + order;
  futures_get_open_orders : option string -> exn + list order
}.

Inductive call : Type :=
| ExchangeInfo
| SymbolTicker (symbol : string)
| CreateOrder (req : order_request)
| CancelOrder (symbol : string) (order_id : Z)
| GetOpenOrders (symbol : option string).

Inductive event : Type :=
| Call (c : call)
| Log (l : level).

(** A computation ends in a value or an exception and leaves the calls it
    made and the lines it logged, in order. *)
Definition M (A : Type) : Type := (exn + A) * list event.

Definition ret {A} (a : A) : M A := (inr a, []).

Definition raise {A} (e : exn) : M A := (inl e, []).

Definition bind {A B} (m : M A) (f : A -> M B) : M B :=
  match m with
  | (inl e, t) => (inl e, t)
  | (inr a, t) => let '(r, t') := f a in (r, t ++ t')
  end.

(** [try: m  except Exception as e: h e]. *)
Definition catch {A} (m : M A) (h : exn -> M A) : M A :=
  match m with
  | (inl e, t) => let '(r, t') := h e in (r, t ++ t')
  | (inr a, t) => (inr a, t)
  end.

Definition lift {A} (r : exn + A) : M A := (r, []).

Definition log (l : level) : M unit := (inr tt, [Log l]).

Definition request {A} (c : call) (answer : exn + A) : M A :=
  (answer, [Call c]).

Notation "x <- m ;; k" := (bind m (fun x => k))
  (at level 100, m at next level, right associativity).
Notation "m ;;; k" := (bind m (fun _ => k))
  (at level 100, right associativity).

Definition result {A} (m : M A) : exn + A := fst m.
Definition trace {A} (m : M A) : list event := snd m.

(** The exchange calls of a trace. *)
Fixpoint calls (t : list event) : list call :=
  match t with
  | [] => []
  | Call c :: t' => c :: calls t'
  | Log _ :: t' => calls t'
  end.

(** The order requests among the calls. *)
Fixpoint requests (cs : list call) : list order_request :=
  match cs with
  | [] => []
  | CreateOrder r :: cs' => r :: requests cs'
  | _ :: cs' => requests cs'
  end.

(** The order requests sent to the exchange. *)
Definition orders_sent (t : list event) : list order_request :=
  requests (calls t).

Section WithClient.
Variable client : Client.

Fixpoint find_symbol (symbols : list symbol_info) (name : string)
  : option symbol_info :=
  match symbols with
  | [] => None
  | si :: rest =>
      if String.eqb (si_symbol si) name then Some si
      else find_symbol rest name
  end.

Definition get_symbol_info (symbol : string) : M symbol_info :=
  catch
    (exchange_info <- request ExchangeInfo (futures_exchange_info client) ;;
     match find_symbol exchange_info (upper symbol) with
     | Some si => ret si
     | None => raise (ValueError ("Symbol " +:+ symbol +:+ " not found"))
     end)
    (fun e => log ERROR ;;; raise e).

Definition get_current_price (symbol : string) : M PyFloat.float :=
  catch
    (ticker <- request (SymbolTicker (upper symbol))
                 (futures_symbol_ticker client (upper symbol)) ;;
     match PyFloat.of_string ticker with
     | None => raise (ValueError "could not convert string to float")
     | Some price => log DEBUG ;;; ret price
     end)
    (fun e => log ERROR ;;; raise e).

(** The loop over [symbol_info['filters']]: the first filter whose
    [filterType] is [LOT_SIZE]; a filter without that key met on the way
    raises [KeyError]. *)
Fixpoint find_lot_size (filters : list (gmap string string))
  : exn + option (gmap string string) :=
  match filters with
  | [] => inr None
  | f :: rest =>
      match f !! "filterType" with
      | None => inl (KeyError "filterType")
      | Some ty =>
          if String.eqb ty "LOT_SIZE" then inr (Some f)
          else find_lot_size rest
      end
  end.

(** [len(str(step_size).split('.')[-1]) if '.' in str(step_size) else 0] *)
Definition precision_of (step_size : PyFloat.float) : nat :=
  let s := PyFloat.repr step_size in
  if contains "." s then String.length (split_last "." s) else O.

(** [float(Decimal(str(quantity)).quantize(Decimal(str(step_size)),
    rounding=ROUND_DOWN))] *)
Definition round_down (quantity step_size : PyFloat.float)
  : exn + PyFloat.float :=
  match PyDecimal.of_string (PyFloat.repr quantity),
        PyDecimal.of_string (PyFloat.repr step_size) with
  | Some q, Some s =>
      match PyDecimal.quantize_down q s with
      | Some d => inr (PyDecimal.to_float d)
      | None => inl InvalidOperation
      end
  | _, _ => inl InvalidOperation
  end.

(** Lines 77-83: the symbol's metadata and its [LOT_SIZE] filter. *)
Definition lot_size_filter (symbol : string)
  : M (option (gmap string string)) :=
  symbol_info <- get_symbol_info symbol ;;
  lift (find_lot_size (si_filters symbol_info)).

(** Lines 88-96: the quantity cut to the step of the filter and printed. *)
Definition round_to_step (f : gmap string string)
  (quantity : PyFloat.float) : exn + string :=
  match f !! "stepSize" with
  | None => inl (KeyError "stepSize")
  | Some step =>
      match PyFloat.of_string step with
      | None => inl (ValueError "could not convert string to float")
      | Some step_size =>
          let precision := precision_of step_size in
          match round_down quantity step_size with
          | inl e => inl e
          | inr rounded_qty =>
              inr (rstrip "." (rstrip "0"
                     (PyFloat.format_f rounded_qty precision)))
          end
      end
  end.

(** What stands between [try:] and [except] in [format_quantity]. *)
Definition format_quantity_try (symbol : string) (quantity : PyFloat.float)
  : M string :=
  lot <- lot_size_filter symbol ;;
  match lot with
  | None => ret (PyFloat.repr quantity)
  | Some f => lift (round_to_step f quantity)
  end.

Definition format_quantity (symbol : string) (quantity : PyFloat.float)
  : M string :=
  catch (format_quantity_try symbol quantity)
    (fun e => log ERROR ;;; ret (PyFloat.repr quantity)).

Definition valid_side (side : string) : bool :=
  String.eqb side "BUY" || String.eqb side "SELL".

Definition place_market_order (symbol side : string)
  (quantity : PyFloat.float) : M order :=
  catch
    (let symbol := upper symbol in
     let side := upper side in
     (if valid_side side then ret tt
      else raise (ValueError "Side must be 'BUY' or 'SELL'")) ;;;
     formatted_qty <- format_quantity symbol quantity ;;
     log INFO ;;;
     let req := {| o_symbol := symbol; o_side := side; o_type := "MARKET";
                   o_quantity := formatted_qty; o_price := None;
                   o_stopPrice := None; o_timeInForce := None |} in
     order <- request (CreateOrder req) (futures_create_order client req) ;;
     log INFO ;;; log DEBUG ;;; ret order)
    (fun e =>
       match e with
       | BinanceAPIException _ _ => log ERROR ;;; raise e
       | _ => log ERROR ;;; raise e
       end).

(** [time_in_force] is [None] when the caller leaves it out: the default
    of the signature, ['GTC'], is used. *)
Definition place_limit_order (symbol side : string)
  (quantity price : PyFloat.float) (time_in_force : option string)
  : M order :=
  let time_in_force := default "GTC" time_in_force in
  catch
    (let symbol := upper symbol in
     let side := upper side in
     (if valid_side side then ret tt
      else raise (ValueError "Side must be 'BUY' or 'SELL'")) ;;;
     formatted_qty <- format_quantity symbol quantity ;;
     log INFO ;;;
     let req := {| o_symbol := symbol; o_side := side; o_type := "LIMIT";
                   o_quantity := formatted_qty;
                   o_price := Some (PyFloat.repr price);
                   o_stopPrice := None;
                   o_timeInForce := Some time_in_force |} in
     order <- request (CreateOrder req) (futures_create_order client req) ;;
     log INFO ;;; log DEBUG ;;; ret order)
    (fun e =>
       match e with
       | BinanceAPIException _ _ => log ERROR ;;; raise e
       | _ => log ERROR ;;; raise e
       end).

Definition place_stop_limit_order (symbol side : string)
  (quantity price stop_price : PyFloat.float)
  (time_in_force : option string) : M order :=
  let time_in_force := default "GTC" time_in_force in
  catch
    (let symbol := upper symbol in
     let side := upper side in
     formatted_qty <- format_quantity symbol quantity ;;
     log INFO ;;;
     let req := {| o_symbol := symbol; o_side := side; o_type := "STOP";
                   o_quantity := formatted_qty;
                   o_price := Some (PyFloat.repr price);
                   o_stopPrice := Some (PyFloat.repr stop_price);
                   o_timeInForce := Some time_in_force |} in
     order <- request (CreateOrder req) (futures_create_order client req) ;;
     log INFO ;;; log DEBUG ;;; ret order)
    (fun e =>
       match e with
       | BinanceAPIException _ _ => log ERROR ;;; raise e
       | _ => log ERROR ;;; raise e
       end).

Definition cancel_order (symbol : string) (order_id : Z) : M order :=
  catch
    (result <- request (CancelOrder (upper symbol) order_id)
                 (futures_cancel_order client (upper symbol) order_id) ;;
     log INFO ;;; ret result)
    (fun e => log ERROR ;;; raise e).

Definition get_open_orders (symbol : option string) : M (list order) :=
  catch
    (orders <- request (GetOpenOrders symbol)
                 (futures_get_open_orders client symbol) ;;
     log INFO ;;; ret orders)
    (fun e => log ERROR ;;; raise e).

End WithClient.

(** An exchange that lists ETHUSDT without filters and BTCUSDT with a price
    filter and a [LOT_SIZE] filter of the given step, quotes 50000.10 and
    accepts every order. *)
Definition sample_client (step : string) : Client :=
  {| futures_exchange_info :=
       inr [ {| si_symbol := "ETHUSDT"; si_filters := [] |};
             {| si_symbol := "BTCUSDT";
                si_filters :=
                  [ {[ "filterType" := "PRICE_FILTER"; "tickSize" := "0.10" ]};
                    {[ "filterType" := "LOT_SIZE"; "stepSize" := step ]} ] |} ];
     futures_symbol_ticker := fun _ => inr "50000.10";
     futures_create_order := fun _ => inr {| orderId := 1 |};
     futures_cancel_order := fun _ id => inr {| orderId := id |};
     futures_get_open_orders := fun _ => inr [] |}.

(** An exchange that cannot be reached. *)
Definition offline_client : Client :=
  {| futures_exchange_info := inl (TransportError "timeout");
     futures_symbol_ticker := fun _ => inl (TransportError "timeout");
     futures_create_order := fun _ => inl (TransportError "timeout");
     futures_cancel_order := fun _ _ => inl (TransportError "timeout");
     futures_get_open_orders := fun _ => inl (TransportError "timeout") |}.

(** Sample values: the floats that [5.9], [1.23456], [1.234], [1e26],
    [1.5e17], [0.0004], [15.0], [0.0], [0.001] and [1.0] denote. *)
Definition f_1_234 : PyFloat.float := PyFloat.Finite false 5557441940175192 (-52).
Definition f_0_001 : PyFloat.float := PyFloat.Finite false 4611686018427388 (-62).
Definition f_one : PyFloat.float := PyFloat.Finite false 4503599627370496 (-52).
Definition f_5_9 : PyFloat.float := PyFloat.Finite false 6642809450371482 (-50).
Definition f_1_23456 : PyFloat.float :=
  PyFloat.Finite false 5559963955966520 (-52).
Definition f_1e26 : PyFloat.float := PyFloat.Finite false 5820766091346741 34.
Definition f_1_5e17 : PyFloat.float := PyFloat.Finite false 4687500000000000 5.
Definition f_0_0004 : PyFloat.float :=
  PyFloat.Finite false 7378697629483821 (-64).
Definition f_15 : PyFloat.float := PyFloat.Finite false 8444249301319680 (-49).
Definition f_zero : PyFloat.float := PyFloat.Finite false 0 PyFloat.emin.

(** Digits, and then nothing or a point followed by digits that end in a
    non-zero one. *)
Definition minimal_unsigned (body : string) : bool :=
  let '(ip, fp) := cut (Ascii.eqb ".") body in
  negb (is_empty ip) && all_digits ip
  && match fp with
     | None => true
     | Some f =>
         all_digits f
         && match last_char f with
            | Some c => negb (Ascii.eqb c "0")
            | None => false
            end
     end.

(** A decimal string with no exponent, no trailing point and no trailing
    zero behind the point, with or without a [-] in front. *)
Definition minimal_decimal (s : string) : bool :=
  minimal_unsigned
    match s with
    | String a s' => if Ascii.eqb a "-" then s' else s
    | EmptyString => s
    end.

End Bot.


(** ** The account: connection test, start-up and balances *)

Module Account.
Import PyStr.

(** The answer to [futures_account]: its text entries, such as
    [totalWalletBalance] and [availableBalance], and the list under
    [assets] when that key is there, each asset a dictionary of strings. *)
Record account_info : Type := {
  acc_fields : gmap string string;
  acc_assets : option (list (gmap string string))
}.

(** The whole exchange client of [BasicBot]: the calls of the order and
    query functions and the two calls about the account. *)
Record FullClient : Type := {
  trading : Bot.Client;
  futures_time : Bot.exn + Z;
  futures_account : Bot.exn + account_info
}.

Inductive api : Type :=
| Construct
| ServerTime
| AccountInfo.

(** What happens: the events of the order and query functions, and the
    calls made here. *)
Inductive event : Type :=
| Trading (e : Bot.event)
| Session (c : api).

Definition M (A : Type) : Type := (Bot.exn + A) * list event.

Definition ret {A} (a : A) : M A := (inr a, []).

Definition raise {A} (e : Bot.exn) : M A := (inl e, []).

Definition bind {A B} (m : M A) (f : A -> M B) : M B :=
  match m with
  | (inl e, t) => (inl e, t)
  | (inr a, t) => let '(r, t') := f a in (r, t ++ t')
  end.

Definition catch {A} (m : M A) (h : Bot.exn -> M A) : M A :=
  match m with
  | (inl e, t) => let '(r, t') := h e in (r, t ++ t')
  | (inr a, t) => (inr a, t)
  end.

Definition lift {A} (r : Bot.exn + A) : M A := (r, []).

Definition log (l : Bot.level) : M unit := (inr tt, [Trading (Bot.Log l)]).

Definition request {A} (c : api) (answer : Bot.exn + A) : M A :=
  (answer, [Session c]).

Local Notation "x <- m ;; k" := (bind m (fun x => k))
  (at level 100, m at next level, right associativity).
Local Notation "m ;;; k" := (bind m (fun _ => k))
  (at level 100, right associativity).

Definition result {A} (m : M A) : Bot.exn + A := fst m.
Definition trace {A} (m : M A) : list event := snd m.

(** The calls about the account in a trace. *)
Fixpoint calls (t : list event) : list api :=
  match t with
  | [] => []
  | Session c :: t' => c :: calls t'
  | Trading _ :: t' => calls t'
  end.

(** [x > 0] for a float [x]. *)
Definition positive (x : PyFloat.float) : bool :=
  match x with
  | PyFloat.Finite false m _ => 0 <? m
  | PyFloat.Inf false => true
  | _ => false
  end.

(** [float(d[key])] *)
Definition float_at (d : gmap string string) (key : string)
  : Bot.exn + PyFloat.float :=
  match d !! key with
  | None => inl (Bot.KeyError key)
  | Some text =>
      match PyFloat.of_string text with
      | None => inl (Bot.ValueError "could not convert string to float")
      | Some x => inr x
      end
  end.

(** A dictionary in insertion order: [d[k] = v] replaces the value of a key
    that is there and appends a new key. *)
Fixpoint dict_set {V} (d : list (string * V)) (k : string) (v : V)
  : list (string * V) :=
  match d with
  | [] => [(k, v)]
  | (k', v') :: d' =>
      if String.eqb k' k then (k', v) :: d' else (k', v') :: dict_set d' k v
  end.

Fixpoint dict_get {V} (d : list (string * V)) (k : string) : option V :=
  match d with
  | [] => None
  | (k', v') :: d' => if String.eqb k' k then Some v' else dict_get d' k
  end.

(** The comprehension of [get_account_balance]: for each asset the
    condition [float(asset['walletBalance']) > 0] first, then the key
    [asset['asset']] and the value. *)
Fixpoint positive_balances (assets : list (gmap string string))
  (acc : list (string * PyFloat.float))
  : Bot.exn + list (string * PyFloat.float) :=
  match assets with
  | [] => inr acc
  | asset :: rest =>
      match float_at asset "walletBalance" with
      | inl e => inl e
      | inr balance =>
          if positive balance then
            match asset !! "asset" with
            | None => inl (Bot.KeyError "asset")
            | Some name => positive_balances rest (dict_set acc name balance)
            end
          else positive_balances rest acc
      end
  end.

Record balance_info : Type := {
  totalBalance : PyFloat.float;
  availableBalance : PyFloat.float;
  balances : list (string * PyFloat.float)
}.

Section WithClient.
Variable client : FullClient.

Definition test_connection : M unit :=
  catch
    (server_time <- request ServerTime (futures_time client) ;;
     log Bot.INFO ;;;
     account <- request AccountInfo (futures_account client) ;;
     balance <- lift (float_at (acc_fields account) "totalWalletBalance") ;;
     log Bot.INFO ;;; ret tt)
    (fun e =>
       match e with
       | Bot.BinanceAPIException _ _ => log Bot.ERROR ;;; raise e
       | _ => log Bot.ERROR ;;; raise e
       end).

Definition get_account_balance : M balance_info :=
  catch
    (account <- request AccountInfo (futures_account client) ;;
     assets <- lift match acc_assets account with
                    | None => inl (Bot.KeyError "assets")
                    | Some assets => inr assets
                    end ;;
     balances <- lift (positive_balances assets []) ;;
     log Bot.INFO ;;;
     total <- lift (float_at (acc_fields account) "totalWalletBalance") ;;
     available <- lift (float_at (acc_fields account) "availableBalance") ;;
     ret {| totalBalance := total; availableBalance := available;
            balances := balances |})
    (fun e => log Bot.ERROR ;;; raise e).

End WithClient.

(** [BasicBot.__init__]: [construct] is what [Client(api_key, api_secret,
    testnet)] gives, a client or an exception; the bot is that client. *)
Definition init (construct : Bot.exn + FullClient) : M FullClient :=
  catch
    (client <- request Construct construct ;;
     log Bot.INFO ;;;
     test_connection client ;;;
     ret client)
    (fun e => log Bot.ERROR ;;; raise e).

(** An account holding USDT and BTC, with an empty BNB balance. *)
Definition sample_account : account_info :=
  {| acc_fields :=
       {[ "totalWalletBalance" := "1500.5"; "availableBalance" := "1200.0" ]};
     acc_assets :=
       Some [ {[ "asset" := "USDT"; "walletBalance" := "1500.5" ]};
              {[ "asset" := "BNB"; "walletBalance" := "0.00000000" ]};
              {[ "asset" := "BTC"; "walletBalance" := "0.002" ]} ] |}.

(** The same account with an asset whose balance is missing. *)
Definition broken_account : account_info :=
  {| acc_fields := acc_fields sample_account;
     acc_assets :=
       Some [ {[ "asset" := "USDT"; "walletBalance" := "1500.5" ]};
              {[ "asset" := "BNB" ]} ] |}.

Definition sample_full_client : FullClient :=
  {| trading := Bot.sample_client "0.001";
     futures_time := inr 1700000000000;
     futures_account := inr sample_account |}.

Definition broken_full_client : FullClient :=
  {| trading := Bot.sample_client "0.001";
     futures_time := inr 1700000000000;
     futures_account := inr broken_account |}.

Definition offline_full_client : FullClient :=
  {| trading := Bot.offline_client;
     futures_time := inl (Bot.TransportError "timeout");
     futures_account := inl (Bot.TransportError "timeout") |}.

End Account.


(** ** The interactive shell of [src/cli.py] *)

Module Cli.
Import PyStr.

(** What arrives at a prompt: a line typed, or Ctrl-C. *)
Inductive key : Type :=
| Line (s : string)
| CtrlC.

(** What a handler can meet: an exception of the bot; the [ValueError] of
    [float(text)], whose message is [could not convert string to float: ]
    followed by [repr(text)]; the [ValueError] of [int(text)]; the end of
    the input at a prompt; Ctrl-C at a prompt.  All but the last are
    instances of [Exception]. *)
Inductive exn : Type :=
| Raised (e : Bot.exn)
| NotAFloat (text : string)
| NotAnInt (text : string)
| EOFError
| KeyboardInterrupt.

Definition is_exception (e : exn) : bool :=
  match e with
  | KeyboardInterrupt => false
  | _ => true
  end.

(** A printed line.  The text of an exception inside an f-string and the
    fields of an order row are kept as they are, not rendered. *)
Inductive line : Type :=
| Text (s : string)
| Failure (prefix : string) (e : exn)
| OrderRow (o : Bot.order).

Inductive event : Type :=
| Bot (e : Account.event)
| Prompt (s : string)
| Print (l : line).

(** A computation reads from the input that is left, ends in a value or an
    exception, and leaves what it did, in order. *)
Definition IO (A : Type) : Type :=
  list key -> (exn + A) * list key * list event.

Definition ret {A} (a : A) : IO A := fun i => (inr a, i, []).

Definition raise {A} (e : exn) : IO A := fun i => (inl e, i, []).

Definition bind {A B} (m : IO A) (f : A -> IO B) : IO B :=
  fun i =>
    match m i with
    | (inl e, i', t) => (inl e, i', t)
    | (inr a, i', t) => let '(r, i'', t') := f a i' in (r, i'', t ++ t')
    end.

(** [try: m  except Exception as e: h e]: a [KeyboardInterrupt] passes. *)
Definition catch {A} (m : IO A) (h : exn -> IO A) : IO A :=
  fun i =>
    match m i with
    | (inl e, i', t) =>
        if is_exception e
        then let '(r, i'', t') := h e i' in (r, i'', t ++ t')
        else (inl e, i', t)
    | (inr a, i', t) => (inr a, i', t)
    end.

(** [try: m  except KeyboardInterrupt: k  except Exception as e: h e] *)
Definition catch_interrupt {A} (m : IO A) (k : IO A) (h : exn -> IO A)
  : IO A :=
  fun i =>
    match m i with
    | (inl e, i', t) =>
        let '(r, i'', t') := (if is_exception e then h e else k) i' in
        (r, i'', t ++ t')
    | (inr a, i', t) => (inr a, i', t)
    end.

(** [input(prompt)]: the prompt is written, a line is read; [EOFError] at
    the end of the input, [KeyboardInterrupt] on Ctrl-C. *)
Definition input (prompt : string) : IO string :=
  fun i =>
    match i with
    | [] => (inl EOFError, [], [Prompt prompt])
    | Line l :: i' => (inr l, i', [Prompt prompt])
    | CtrlC :: i' => (inl KeyboardInterrupt, i', [Prompt prompt])
    end.

Definition print (l : line) : IO unit := fun i => (inr tt, i, [Print l]).

(** A call into the order and query functions of the bot. *)
Definition trade {A} (m : Bot.M A) : IO A :=
  fun i =>
    (match fst m with inl e => inl (Raised e) | inr a => inr a end,
     i, map (fun e => Bot (Account.Trading e)) (snd m)).

(** A call into the account functions of the bot. *)
Definition account {A} (m : Account.M A) : IO A :=
  fun i =>
    (match fst m with inl e => inl (Raised e) | inr a => inr a end,
     i, map Bot (snd m)).

Local Notation "x <- m ;; k" := (bind m (fun x => k))
  (at level 100, m at next level, right associativity).
Local Notation "m ;;; k" := (bind m (fun _ => k))
  (at level 100, right associativity).

Definition nl : string := String (ascii_of_nat 10) EmptyString.

(** [str(n)] for an integer. *)
Definition str_int (n : Z) : string :=
  if n <? 0 then "-" +:+ of_Z (- n) else of_Z n.

(** *** [float(text)] and [int(text)] on a line of ASCII text *)

(** The blanks [float] and [int] skip around an ASCII literal: the space,
    [\t], [\n], [\v], [\f] and [\r].  The separators 28..31, which
    [str.strip] removes, are not among them. *)
Definition is_blank (a : ascii) : bool :=
  let n := nat_of_ascii a in
  (n =? 32)%nat || ((9 <=? n)%nat && (n <=? 13)%nat).

Fixpoint lstrip_blank (s : string) : string :=
  match s with
  | String a s' => if is_blank a then lstrip_blank s' else s
  | EmptyString => EmptyString
  end.

Fixpoint rstrip_blank (s : string) : string :=
  match s with
  | EmptyString => EmptyString
  | String a s' =>
      let r := rstrip_blank s' in
      if is_empty r && is_blank a then EmptyString else String a r
  end.

Definition strip_blank (s : string) : string :=
  rstrip_blank (lstrip_blank s).

Definition is_underscore (a : ascii) : bool := Ascii.eqb a "_".

Definition digit_before (prev : option ascii) : bool :=
  match prev with
  | Some p => is_digit p
  | None => false
  end.

Definition underscore_before (prev : option ascii) : bool :=
  match prev with
  | Some p => is_underscore p
  | None => false
  end.

(** Digit-group underscores (PEP 515): an underscore stands between two
    digits.  The text without them, [None] when one is misplaced. *)
Fixpoint ungroup (prev : option ascii) (s : string) : option string :=
  match s with
  | EmptyString => if underscore_before prev then None else Some EmptyString
  | String a s' =>
      if is_underscore a then
        if digit_before prev then ungroup (Some a) s' else None
      else if underscore_before prev && negb (is_digit a) then None
      else
        match ungroup (Some a) s' with
        | Some r => Some (String a r)
        | None => None
        end
  end.

(** [float(text)]: underscores are taken out of the whole text, the blanks
    around it are dropped, and what is left is a sign in front of [inf],
    [infinity], [nan] (in any case) or a decimal number.  [None] stands for
    [ValueError]. *)
Definition float_of_text (text : string) : option PyFloat.float :=
  match ungroup None text with
  | None => None
  | Some s =>
      let '(neg, body) := PyFloat.parse_sign (strip_blank s) in
      let low := lower body in
      if String.eqb low "inf" || String.eqb low "infinity"
      then Some (PyFloat.Inf neg)
      else if String.eqb low "nan" then Some PyFloat.NaN
      else
        match PyFloat.parse_number body with
        | Some (c, e) => Some (PyFloat.of_decimal neg c e)
        | None => None
        end
  end.

(** CPython's default limit on the digits of a decimal integer literal. *)
Definition int_max_str_digits : Z := 4300.

(** [int(text)]: blanks around, a sign, digits in groups.  [None] stands for
    [ValueError]. *)
Definition int_of_text (text : string) : option Z :=
  let '(neg, body) := PyFloat.parse_sign (strip_blank text) in
  match ungroup None body with
  | None => None
  | Some ds =>
      if is_empty ds || negb (all_digits ds)
         || (int_max_str_digits <? len ds)
      then None
      else Some (if neg then - to_Z ds else to_Z ds)
  end.

(** A text of ASCII characters only: on such a text the two readers above
    are those of Python. *)
Fixpoint is_ascii (s : string) : bool :=
  match s with
  | EmptyString => true
  | String a s' => (nat_of_ascii a <? 128)%nat && is_ascii s'
  end.

Definition to_float (s : string) : IO PyFloat.float :=
  match float_of_text s with
  | Some x => ret x
  | None => raise (NotAFloat s)
  end.

Definition to_int (s : string) : IO Z :=
  match int_of_text s with
  | Some n => ret n
  | None => raise (NotAnInt s)
  end.

Fixpoint print_all (ls : list line) : IO unit :=
  match ls with
  | [] => ret tt
  | l :: ls' => print l ;;; print_all ls'
  end.

Section WithBot.
Variable bot : Account.FullClient.

Definition handle_market_order : IO unit :=
  catch
    (symbol <- input "Symbol (e.g., BTCUSDT): " ;;
     let symbol := strip symbol in
     side <- input "Side (BUY/SELL): " ;;
     let side := upper (strip side) in
     quantity_text <- input "Quantity: " ;;
     quantity <- to_float quantity_text ;;
     result <- trade (Bot.place_market_order (Account.trading bot)
                        symbol side quantity) ;;
     print (Text ("Market order placed: " +:+ str_int (Bot.orderId result))))
    (fun e => print (Failure "Failed to place market order" e)).

Definition handle_limit_order : IO unit :=
  catch
    (symbol <- input "Symbol (e.g., BTCUSDT): " ;;
     let symbol := strip symbol in
     side <- input "Side (BUY/SELL): " ;;
     let side := upper (strip side) in
     quantity_text <- input "Quantity: " ;;
     quantity <- to_float quantity_text ;;
     price_text <- input "Price: " ;;
     price <- to_float price_text ;;
     result <- trade (Bot.place_limit_order (Account.trading bot)
                        symbol side quantity price None) ;;
     print (Text ("Limit order placed: " +:+ str_int (Bot.orderId result))))
    (fun e => print (Failure "Failed to place limit order" e)).

Definition handle_stop_order : IO unit :=
  catch
    (symbol <- input "Symbol (e.g., BTCUSDT): " ;;
     let symbol := strip symbol in
     side <- input "Side (BUY/SELL): " ;;
     let side := upper (strip side) in
     quantity_text <- input "Quantity: " ;;
     quantity <- to_float quantity_text ;;
     stop_text <- input "Stop price: " ;;
     stop_price <- to_float stop_text ;;
     limit_text <- input "Limit price: " ;;
     limit_price <- to_float limit_text ;;
     result <- trade (Bot.place_stop_limit_order (Account.trading bot)
                        symbol side quantity limit_price stop_price None) ;;
     print (Text ("Stop-limit order placed: "
                    +:+ str_int (Bot.orderId result))))
    (fun e => print (Failure "Failed to place stop-limit order" e)).

Definition handle_cancel_order : IO unit :=
  catch
    (symbol <- input "Symbol: " ;;
     let symbol := strip symbol in
     id_text <- input "Order ID: " ;;
     order_id <- to_int id_text ;;
     result <- trade (Bot.cancel_order (Account.trading bot)
                        symbol order_id) ;;
     print (Text ("Order " +:+ str_int order_id
                    +:+ " cancelled successfully")))
    (fun e => print (Failure "Failed to cancel order" e)).

Definition handle_show_orders : IO unit :=
  catch
    (symbol <- input "Symbol (or press Enter for all): " ;;
     let symbol := strip symbol in
     let symbol := if is_empty symbol then None else Some symbol in
     orders <- trade (Bot.get_open_orders (Account.trading bot) symbol) ;;
     match orders with
     | [] => print (Text "No open orders")
     | _ =>
         print (Text (nl +:+ "Open orders ("
                        +:+ str_int (Z.of_nat (length orders)) +:+ "):")) ;;;
         print_all (map OrderRow orders)
     end)
    (fun e => print (Failure "Failed to get orders" e)).

Definition handle_show_balance : IO unit :=
  catch
    (info <- account (Account.get_account_balance bot) ;;
     print (Text (nl +:+ "Total Balance: "
                    +:+ PyFloat.repr (Account.totalBalance info)
                    +:+ " USDT")) ;;;
     print (Text ("Available Balance: "
                    +:+ PyFloat.repr (Account.availableBalance info)
                    +:+ " USDT")) ;;;
     match Account.balances info with
     | [] => ret tt
     | items =>
         print (Text (nl +:+ "Asset Balances:")) ;;;
         print_all
           (map (fun '(asset, balance) =>
                   Text (asset +:+ ": " +:+ PyFloat.repr balance)) items)
     end)
    (fun e => print (Failure "Failed to get balance" e)).

Definition handle_get_price : IO unit :=
  catch
    (symbol <- input "Symbol (e.g., BTCUSDT): " ;;
     let symbol := strip symbol in
     price <- trade (Bot.get_current_price (Account.trading bot) symbol) ;;
     print (Text ("Current price for " +:+ symbol +:+ ": "
                    +:+ PyFloat.repr price)))
    (fun e => print (Failure "Failed to get price" e)).

(** The body of the [try] inside the [while True] loop: [true] when it
    breaks. *)
Definition read_command : IO bool :=
  command <- input (nl +:+ "Enter command: ") ;;
  let command := lower (strip command) in
  if String.eqb command "quit" then print (Text "Goodbye!") ;;; ret true
  else if String.eqb command "market" then handle_market_order ;;; ret false
  else if String.eqb command "limit" then handle_limit_order ;;; ret false
  else if String.eqb command "stop" then handle_stop_order ;;; ret false
  else if String.eqb command "cancel" then handle_cancel_order ;;; ret false
  else if String.eqb command "orders" then handle_show_orders ;;; ret false
  else if String.eqb command "balance" then
    handle_show_balance ;;; ret false
  else if String.eqb command "price" then handle_get_price ;;; ret false
  else print (Text "Unknown command. Try again.") ;;; ret false.

(** One turn of the loop: Ctrl-C, at the command prompt or inside a
    handler, prints the farewell and breaks; any other exception is
    reported and the loop goes on. *)
Definition turn : IO bool :=
  catch_interrupt read_command
    (print (Text (nl +:+ "Goodbye!")) ;;; ret true)
    (fun e => print (Failure "Error" e) ;;; ret false).

(** The loop, for at most [fuel] turns: the input left and what was done
    when it breaks within them, [None] when it is still running. *)
Fixpoint loop (fuel : nat) (i : list key)
  : option (list key * list event) :=
  match fuel with
  | O => None
  | S fuel' =>
      match turn i with
      | (inr true, i', t) => Some (i', t)
      | (_, i', t) =>
          match loop fuel' i' with
          | Some (i'', t') => Some (i'', t ++ t')
          | None => None
          end
      end
  end.

Definition banner : list line :=
  [ Text (nl +:+ "=== Binance Futures Trading Bot ===");
    Text "Available commands:";
    Text "1. market - Place market order";
    Text "2. limit - Place limit order";
    Text "3. stop - Place stop-limit order";
    Text "4. cancel - Cancel order";
    Text "5. orders - Show open orders";
    Text "6. balance - Show account balance";
    Text "7. price - Get current price";
    Text "8. quit - Exit";
    Text (repeat "=" 40) ].

Definition run_interactive_mode (fuel : nat) (i : list key)
  : option (list key * list event) :=
  match loop fuel i with
  | Some (i', t) => Some (i', map Print banner ++ t)
  | None => None
  end.

End WithBot.

(** The order and query calls among the events of the shell. *)
Fixpoint trading_calls (t : list event) : list Bot.call :=
  match t with
  | [] => []
  | Bot (Account.Trading (Bot.Call c)) :: t' => c :: trading_calls t'
  | _ :: t' => trading_calls t'
  end.

(** The lines printed. *)
Fixpoint printed (t : list event) : list line :=
  match t with
  | [] => []
  | Print l :: t' => l :: printed t'
  | _ :: t' => printed t'
  end.




(** A computation only reads forward: the input it leaves is the end of
    the input it was given. *)
Definition reads_forward {A} (m : IO A) : Prop :=
  forall i, exists pre, i = pre ++ snd (fst (m i)).

Definition interrupted {A} (r : exn + A) : bool :=
  match r with
  | inl KeyboardInterrupt => true
  | _ => false
  end.

(** A computation reads lines, and it ends in [KeyboardInterrupt] exactly
    when the last thing it read was Ctrl-C. *)
Definition reads_lines {A} (m : IO A) : Prop :=
  forall i, exists lines,
    i = map Line lines
          ++ (if interrupted (fst (fst (m i))) then [CtrlC] else [])
          ++ snd (fst (m i)).

(** The command words of the shell. *)
Definition keywords : list string :=
  ["quit"; "market"; "limit"; "stop"; "cancel"; "orders"; "balance"; "price"].



End Cli.

(** ** More sample exchanges *)

Module Samples.

(** An exchange whose XRPUSDT entry has a filter without [filterType] in
    front of its [LOT_SIZE] filter. *)
Definition malformed_client : Bot.Client :=
  {| Bot.futures_exchange_info :=
       inr [ {| Bot.si_symbol := "XRPUSDT";
                Bot.si_filters :=
                  [ {[ "filterType" := "PRICE_FILTER"; "tickSize" := "0.0001" ]};
                    {[ "tickSize" := "0.0001" ]};
                    {[ "filterType" := "LOT_SIZE"; "stepSize" := "0.1" ]} ] |} ];
     Bot.futures_symbol_ticker := fun _ => inr "n/a";
     Bot.futures_create_order :=
       fun _ => inl (Bot.BinanceAPIException (-2019) "Margin is insufficient.");
     Bot.futures_cancel_order :=
       fun _ _ => inl (Bot.BinanceAPIException (-2011) "Unknown order sent.");
     Bot.futures_get_open_orders := fun _ => inr [] |}.

End Samples.


(** * Properties *)

Import PyStr.

(** ** Digits and stripping *)

Section StringFacts.

Lemma app_nil (s : string) : EmptyString +:+ s = s.
Proof. reflexivity. Qed.

Lemma app_cons (a : ascii) (s1 s2 : string) :
  String a s1 +:+ s2 = String a (s1 +:+ s2).
Proof. reflexivity. Qed.

Lemma app_empty_r (s : string) : s +:+ EmptyString = s.
Proof.
  induction s as [| a s IH]; [reflexivity |].
  rewrite app_cons, IH. reflexivity.
Qed.

Lemma is_empty_true (s : string) : is_empty s = true -> s = EmptyString.
Proof. destruct s; [reflexivity | discriminate]. Qed.

Lemma is_digit_digit_char (d : Z) :
  0 <= d < 10 -> is_digit (digit_char d) = true.
Proof.
  intros Hd.
  assert (Hc : d = 0 \/ d = 1 \/ d = 2 \/ d = 3 \/ d = 4 \/ d = 5 \/ d = 6
               \/ d = 7 \/ d = 8 \/ d = 9) by lia.
  destruct Hc
    as [-> | [-> | [-> | [-> | [-> | [-> | [-> | [-> | [-> | ->]]]]]]]]];
    reflexivity.
Qed.

Lemma is_digit_mod10 (n : Z) : is_digit (digit_char (n mod 10)) = true.
Proof. apply is_digit_digit_char, Z.mod_pos_bound. lia. Qed.

Lemma all_digits_digits_fuel (fuel : nat) :
  forall n acc,
    all_digits acc = true -> all_digits (digits_fuel fuel n acc) = true.
Proof.
  induction fuel as [| fuel IH]; intros n acc Hacc; cbn [digits_fuel].
  - exact Hacc.
  - assert (Hacc' : all_digits (String (digit_char (n mod 10)) acc) = true).
    { cbn [all_digits]. rewrite is_digit_mod10. exact Hacc. }
    destruct (n <? 10); [exact Hacc' | apply IH, Hacc'].
Qed.

Lemma digits_fuel_nonempty (fuel : nat) :
  forall n acc,
    is_empty acc = false -> is_empty (digits_fuel fuel n acc) = false.
Proof.
  induction fuel as [| fuel IH]; intros n acc Hacc; cbn [digits_fuel].
  - exact Hacc.
  - destruct (n <? 10); [reflexivity | apply IH; reflexivity].
Qed.

Lemma all_digits_of_Z (n : Z) : all_digits (of_Z n) = true.
Proof. apply all_digits_digits_fuel. reflexivity. Qed.

Lemma of_Z_nonempty (n : Z) : is_empty (of_Z n) = false.
Proof.
  unfold of_Z. cbn [digits_fuel]. destruct (n <? 10); [reflexivity |].
  apply digits_fuel_nonempty. reflexivity.
Qed.

Lemma all_digits_frac_digits (p : nat) :
  forall v acc,
    all_digits acc = true ->
    all_digits (PyFloat.frac_digits p v acc) = true.
Proof.
  induction p as [| p IH]; intros v acc Hacc; cbn [PyFloat.frac_digits].
  - exact Hacc.
  - apply IH. cbn [all_digits]. rewrite is_digit_mod10. exact Hacc.
Qed.

Lemma digit_not_char (a c : ascii) :
  is_digit c = false -> is_digit a = true -> Ascii.eqb a c = false.
Proof.
  intros Hc Ha. destruct (Ascii.eqb a c) eqn:E; [| reflexivity].
  apply Ascii.eqb_eq in E. subst a. congruence.
Qed.

Lemma all_digits_contains (c : ascii) (s : string) :
  is_digit c = false -> all_digits s = true -> contains c s = false.
Proof.
  intros Hc. induction s as [| a s IH]; simpl; [reflexivity |].
  intros H. apply andb_prop in H. destruct H as [Ha Hs].
  rewrite (digit_not_char a c Hc Ha). simpl. apply IH, Hs.
Qed.

Lemma all_digits_app (s1 s2 : string) :
  all_digits (s1 +:+ s2) = all_digits s1 && all_digits s2.
Proof.
  induction s1 as [| a s1 IH]; [reflexivity |].
  rewrite app_cons. cbn [all_digits]. rewrite IH. apply andb_assoc.
Qed.

(** Stripping a text that does not hold the character changes nothing. *)
Lemma rstrip_absent (c : ascii) (s : string) :
  contains c s = false -> rstrip c s = s.
Proof.
  induction s as [| a s IH]; simpl; [reflexivity |].
  intros H. apply orb_false_elim in H. destruct H as [Ha Hs].
  rewrite (IH Hs), Ha, andb_false_r. reflexivity.
Qed.

Lemma rstrip_app (c : ascii) (s1 s2 : string) :
  rstrip c (s1 +:+ s2)
  = if is_empty (rstrip c s2) then rstrip c s1 else s1 +:+ rstrip c s2.
Proof.
  induction s1 as [| a s1 IH].
  - rewrite !app_nil. destruct (rstrip c s2); reflexivity.
  - rewrite !app_cons. cbn [rstrip]. rewrite IH.
    destruct (is_empty (rstrip c s2)) eqn:E; [reflexivity |].
    destruct (s1 +:+ rstrip c s2) eqn:E2; [| reflexivity].
    destruct s1; [| discriminate].
    rewrite app_nil in E2. rewrite E2 in E. discriminate.
Qed.

Lemma all_digits_rstrip (c : ascii) (s : string) :
  all_digits s = true -> all_digits (rstrip c s) = true.
Proof.
  induction s as [| a s IH]; simpl; [reflexivity |].
  intros H. apply andb_prop in H. destruct H as [Ha Hs].
  destruct (is_empty (rstrip c s) && Ascii.eqb a c); [reflexivity |].
  simpl. rewrite Ha. apply IH, Hs.
Qed.

(** What [rstrip] leaves does not end in the stripped character. *)
Lemma last_char_rstrip (c : ascii) (s : string) :
  last_char (rstrip c s) <> Some c.
Proof.
  induction s as [| a s IH]; simpl; [discriminate |].
  destruct (rstrip c s) as [| b r] eqn:E; simpl.
  - destruct (Ascii.eqb a c) eqn:Ea; simpl; [discriminate |].
    intros H. injection H as ->. rewrite Ascii.eqb_refl in Ea. discriminate.
  - exact IH.
Qed.

Lemma cut_digits_point (ip fp : string) :
  all_digits ip = true ->
  cut (Ascii.eqb ".") (ip +:+ String "." fp) = (ip, Some fp).
Proof.
  induction ip as [| a ip IH]; [reflexivity |].
  rewrite app_cons. cbn [cut all_digits].
  intros H. apply andb_prop in H. destruct H as [Ha Hs].
  rewrite Ascii.eqb_sym, (digit_not_char a "." eq_refl Ha), (IH Hs).
  reflexivity.
Qed.

Lemma cut_digits (ip : string) :
  all_digits ip = true -> cut (Ascii.eqb ".") ip = (ip, None).
Proof.
  induction ip as [| a ip IH]; cbn [cut all_digits]; [reflexivity |].
  intros H. apply andb_prop in H. destruct H as [Ha Hs].
  rewrite Ascii.eqb_sym, (digit_not_char a "." eq_refl Ha), (IH Hs).
  reflexivity.
Qed.

Lemma is_empty_app (s1 s2 : string) :
  is_empty (s1 +:+ s2) = is_empty s1 && is_empty s2.
Proof. destruct s1; [rewrite app_nil | rewrite app_cons]; reflexivity. Qed.

Lemma last_char_nonempty (s : string) :
  is_empty s = false -> exists c, last_char s = Some c.
Proof.
  induction s as [| a s IH]; [discriminate |].
  intros _. destruct s as [| b s]; [exists a; reflexivity |].
  destruct IH as [c Hc]; [reflexivity |]. exists c. exact Hc.
Qed.

(** Digits, with or without a sign in front, followed by nothing or by a
    point and digits that end in a non-zero one, are a minimal decimal. *)
Lemma minimal_decimal_signed (neg : bool) (ip : string) (fp : option string) :
  is_empty ip = false -> all_digits ip = true ->
  (forall f, fp = Some f ->
     all_digits f = true /\ is_empty f = false /\ last_char f <> Some "0"%char) ->
  Bot.minimal_decimal
    (PyFloat.sign_str neg
       +:+ ip +:+ match fp with Some f => String "." f | None => EmptyString end)
  = true.
Proof.
  intros Hne Hip Hfp.
  assert (Hbody :
    Bot.minimal_unsigned
      (ip +:+ match fp with Some f => String "." f | None => EmptyString end)
    = true).
  { unfold Bot.minimal_unsigned. destruct fp as [f |].
    - rewrite (cut_digits_point _ f Hip), Hne, Hip.
      destruct (Hfp f eq_refl) as (Hf & Hfne & Hlast).
      rewrite Hf. destruct (last_char_nonempty f Hfne) as [c Hc].
      rewrite Hc in *. destruct (Ascii.eqb c "0") eqn:Ec; [| reflexivity].
      apply Ascii.eqb_eq in Ec. subst c. contradiction.
    - rewrite app_empty_r, (cut_digits _ Hip), Hne, Hip. reflexivity. }
  unfold Bot.minimal_decimal. destruct neg.
  - unfold PyFloat.sign_str. rewrite app_cons, app_nil.
    change (Ascii.eqb "-" "-") with true. cbv iota. exact Hbody.
  - unfold PyFloat.sign_str. rewrite app_nil.
    destruct ip as [| a ip']; [discriminate |].
    rewrite app_cons.
    assert (Ha : Ascii.eqb a "-" = false).
    { cbn [all_digits] in Hip. apply andb_prop in Hip.
      apply (digit_not_char a "-" eq_refl), Hip. }
    rewrite Ha, <- app_cons. exact Hbody.
Qed.

(** [rstrip('0').rstrip('.')] on a number printed with a point gives a
    minimal decimal. *)
Lemma strip_fixed_minimal (neg : bool) (ip fp : string) :
  is_empty ip = false -> all_digits ip = true -> all_digits fp = true ->
  Bot.minimal_decimal
    (rstrip "." (rstrip "0" (PyFloat.sign_str neg +:+ ip +:+ String "." fp)))
  = true.
Proof.
  intros Hne Hip Hfp.
  set (r := rstrip "0" fp).
  assert (Hr : all_digits r = true) by (apply all_digits_rstrip, Hfp).
  assert (Hlast : last_char r <> Some "0"%char) by apply last_char_rstrip.
  assert (H0 : rstrip "0" (PyFloat.sign_str neg +:+ ip +:+ String "." fp)
               = PyFloat.sign_str neg +:+ ip +:+ String "." r).
  { rewrite rstrip_app.
    assert (Hin : rstrip "0" (ip +:+ String "." fp) = ip +:+ String "." r).
    { rewrite rstrip_app. cbn [rstrip]. fold r.
      change (Ascii.eqb "." "0") with false. rewrite andb_false_r.
      reflexivity. }
    rewrite Hin, is_empty_app, Hne. reflexivity. }
  rewrite H0.
  assert (Hipdot : rstrip "." ip = ip).
  { apply rstrip_absent, all_digits_contains; [reflexivity | exact Hip]. }
  assert (Hrdot : rstrip "." r = r).
  { apply rstrip_absent, all_digits_contains; [reflexivity | exact Hr]. }
  destruct (is_empty r) eqn:Er.
  - apply is_empty_true in Er. rewrite Er.
    assert (H1 : rstrip "." (PyFloat.sign_str neg +:+ ip +:+ String "." "")
                 = PyFloat.sign_str neg +:+ ip).
    { rewrite rstrip_app.
      assert (Hin : rstrip "." (ip +:+ String "." "") = ip).
      { rewrite rstrip_app. cbn [rstrip is_empty]. rewrite Ascii.eqb_refl.
        cbn [andb is_empty]. exact Hipdot. }
      rewrite Hin, Hne. reflexivity. }
    rewrite H1.
    pose proof (minimal_decimal_signed neg ip None Hne Hip) as Hm.
    rewrite app_empty_r in Hm. apply Hm. intros f Hf. discriminate.
  - assert (H1 : rstrip "." (PyFloat.sign_str neg +:+ ip +:+ String "." r)
                 = PyFloat.sign_str neg +:+ ip +:+ String "." r).
    { rewrite rstrip_app.
      assert (Hin : rstrip "." (ip +:+ String "." r) = ip +:+ String "." r).
      { rewrite rstrip_app. cbn [rstrip]. rewrite Hrdot, Er.
        cbn [andb is_empty]. reflexivity. }
      rewrite Hin, is_empty_app, Hne. reflexivity. }
    rewrite H1.
    apply (minimal_decimal_signed neg ip (Some r) Hne Hip). intros f Hf.
    injection Hf as <-. auto.
Qed.

(** A finite float printed with at least one fractional digit and then
    stripped is a minimal decimal. *)
Lemma format_f_stripped_minimal (neg : bool) (m e : Z) (p : nat) :
  Bot.minimal_decimal
    (rstrip "." (rstrip "0" (PyFloat.format_f (PyFloat.Finite neg m e) (S p))))
  = true.
Proof.
  cbv beta iota zeta delta [PyFloat.format_f].
  apply strip_fixed_minimal.
  - apply of_Z_nonempty.
  - apply all_digits_of_Z.
  - apply all_digits_frac_digits. reflexivity.
Qed.

End StringFacts.


(** ** Traces *)

Import Bot.

Section TraceFacts.

Lemma sample_floats :
  PyFloat.of_string "5.9" = Some f_5_9
  /\ PyFloat.of_string "1.23456" = Some f_1_23456
  /\ PyFloat.of_string "1e26" = Some f_1e26
  /\ PyFloat.of_string "1.5e17" = Some f_1_5e17
  /\ PyFloat.of_string "0.0004" = Some f_0_0004
  /\ PyFloat.of_string "15" = Some f_15
  /\ PyFloat.of_string "0.0" = Some f_zero
  /\ PyFloat.of_string "1.234" = Some f_1_234
  /\ PyFloat.of_string "0.001" = Some f_0_001
  /\ PyFloat.of_string "1" = Some f_one.
Proof. vm_compute. repeat split. Qed.

Lemma calls_app (t1 t2 : list event) :
  calls (t1 ++ t2) = calls t1 ++ calls t2.
Proof.
  induction t1 as [| [c | l] t1 IH]; cbn [calls app]; [reflexivity | |].
  - rewrite IH. reflexivity.
  - exact IH.
Qed.

Lemma requests_app (c1 c2 : list call) :
  requests (c1 ++ c2) = requests c1 ++ requests c2.
Proof.
  induction c1 as [| c c1 IH]; cbn [requests app]; [reflexivity |].
  destruct c; cbn [app]; rewrite ?IH; reflexivity.
Qed.

Lemma orders_sent_app (t1 t2 : list event) :
  orders_sent (t1 ++ t2) = orders_sent t1 ++ orders_sent t2.
Proof. unfold orders_sent. rewrite calls_app. apply requests_app. Qed.

Variable client : Client.

(** The metadata lookup asks the exchange once, whether it succeeds or not. *)
Lemma get_symbol_info_calls (symbol : string) :
  calls (trace (get_symbol_info client symbol)) = [ExchangeInfo].
Proof.
  unfold get_symbol_info, request, catch, bind, trace.
  destruct (futures_exchange_info client) as [e | infos]; [reflexivity |].
  destruct (find_symbol infos (upper symbol)); reflexivity.
Qed.

Lemma lot_size_filter_calls (symbol : string) :
  calls (trace (lot_size_filter client symbol)) = [ExchangeInfo].
Proof.
  pose proof (get_symbol_info_calls symbol) as H.
  unfold lot_size_filter, bind, lift, trace in *.
  destruct (get_symbol_info client symbol) as [[e | si] t]; cbn [snd] in *;
    [exact H |].
  destruct (find_lot_size (si_filters si)); cbn [snd];
    rewrite app_nil_r; exact H.
Qed.

(** [format_quantity] always returns a string, and the exchange is asked
    for its metadata exactly once on the way. *)
Lemma format_quantity_returns (symbol : string) (quantity : PyFloat.float) :
  exists s t,
    format_quantity client symbol quantity = (inr s, t)
    /\ calls t = [ExchangeInfo].
Proof.
  pose proof (lot_size_filter_calls symbol) as H.
  unfold format_quantity, format_quantity_try, catch, bind, lift, ret, log,
    raise, trace in *.
  destruct (lot_size_filter client symbol) as [[e | lot] t]; cbn [snd] in H.
  - eexists _, _. split; [reflexivity |].
    rewrite calls_app, H. reflexivity.
  - destruct lot as [f |].
    + destruct (round_to_step f quantity) as [e | s].
      * eexists _, _. split; [reflexivity |].
        rewrite !calls_app, H. reflexivity.
      * eexists _, _. split; [reflexivity |].
        rewrite calls_app, H. reflexivity.
    + eexists _, _. split; [reflexivity |].
      rewrite calls_app, H. reflexivity.
Qed.

(** Whatever the body of [format_quantity] raises, the quantity's own string
    is returned. *)
Lemma format_quantity_catches (symbol : string) (quantity : PyFloat.float)
  (e : exn) :
  result (format_quantity_try client symbol quantity) = inl e ->
  result (format_quantity client symbol quantity)
  = inr (PyFloat.repr quantity).
Proof.
  unfold format_quantity, catch, result.
  destruct (format_quantity_try client symbol quantity) as [[e' | s] t];
    [reflexivity | discriminate].
Qed.

(** With a [LOT_SIZE] filter found, the result is that of [round_to_step],
    or the fallback when it raises. *)
Lemma format_quantity_with_filter (symbol : string)
  (quantity : PyFloat.float) (f : gmap string string) :
  result (lot_size_filter client symbol) = inr (Some f) ->
  result (format_quantity client symbol quantity)
  = inr match round_to_step f quantity with
        | inr s => s
        | inl _ => PyFloat.repr quantity
        end.
Proof.
  unfold format_quantity, format_quantity_try, catch, bind, lift, result.
  destruct (lot_size_filter client symbol) as [[e | lot] t]; cbn [fst];
    [discriminate |].
  intros H. injection H as ->.
  destruct (round_to_step f quantity); reflexivity.
Qed.

End TraceFacts.

(** ** The order builder *)

Section OrderFacts.

Variable client : Client.

Lemma place_market_order_invalid_side (symbol side : string)
  (quantity : PyFloat.float) :
  valid_side (upper side) = false ->
  place_market_order client symbol side quantity
  = (inl (ValueError "Side must be 'BUY' or 'SELL'"), [Log ERROR]).
Proof.
  intros H. unfold place_market_order, catch, bind, raise.
  rewrite H. reflexivity.
Qed.

Lemma place_limit_order_invalid_side (symbol side : string)
  (quantity price : PyFloat.float) (tif : option string) :
  valid_side (upper side) = false ->
  place_limit_order client symbol side quantity price tif
  = (inl (ValueError "Side must be 'BUY' or 'SELL'"), [Log ERROR]).
Proof.
  intros H. unfold place_limit_order, catch, bind, raise.
  rewrite H. reflexivity.
Qed.

(** A market order with a valid side asks for the metadata and then sends
    one request, built from the upper-cased symbol and side and the
    formatted quantity. *)
Lemma place_market_order_calls (symbol side : string)
  (quantity : PyFloat.float) :
  valid_side (upper side) = true ->
  exists qty,
    result (format_quantity client (upper symbol) quantity) = inr qty
    /\ calls (trace (place_market_order client symbol side quantity))
       = [ExchangeInfo;
          CreateOrder
            {| o_symbol := upper symbol; o_side := upper side;
               o_type := "MARKET"; o_quantity := qty; o_price := None;
               o_stopPrice := None; o_timeInForce := None |}].
Proof.
  intros H.
  destruct (format_quantity_returns client (upper symbol) quantity)
    as (qty & t & Hfq & Hcalls).
  exists qty. split; [rewrite Hfq; reflexivity |].
  unfold place_market_order, catch, bind, ret, raise, log, request, trace.
  rewrite H, Hfq.
  match goal with
  | |- context [futures_create_order client ?r] =>
      destruct (futures_create_order client r) as [[] |]
  end; cbn [snd]; rewrite !calls_app, Hcalls; reflexivity.
Qed.

Lemma place_limit_order_calls (symbol side : string)
  (quantity price : PyFloat.float) (tif : option string) :
  valid_side (upper side) = true ->
  exists qty,
    result (format_quantity client (upper symbol) quantity) = inr qty
    /\ calls (trace (place_limit_order client symbol side quantity price tif))
       = [ExchangeInfo;
          CreateOrder
            {| o_symbol := upper symbol; o_side := upper side;
               o_type := "LIMIT"; o_quantity := qty;
               o_price := Some (PyFloat.repr price); o_stopPrice := None;
               o_timeInForce := Some (default "GTC" tif) |}].
Proof.
  intros H.
  destruct (format_quantity_returns client (upper symbol) quantity)
    as (qty & t & Hfq & Hcalls).
  exists qty. split; [rewrite Hfq; reflexivity |].
  unfold place_limit_order, catch, bind, ret, raise, log, request, trace.
  rewrite H, Hfq.
  match goal with
  | |- context [futures_create_order client ?r] =>
      destruct (futures_create_order client r) as [[] |]
  end; cbn [snd]; rewrite !calls_app, Hcalls; reflexivity.
Qed.

(** A stop-limit order does the same for every side. *)
Lemma place_stop_limit_order_calls (symbol side : string)
  (quantity price stop_price : PyFloat.float) (tif : option string) :
  exists qty,
    result (format_quantity client (upper symbol) quantity) = inr qty
    /\ calls (trace (place_stop_limit_order client symbol side quantity
                       price stop_price tif))
       = [ExchangeInfo;
          CreateOrder
            {| o_symbol := upper symbol; o_side := upper side;
               o_type := "STOP"; o_quantity := qty;
               o_price := Some (PyFloat.repr price);
               o_stopPrice := Some (PyFloat.repr stop_price);
               o_timeInForce := Some (default "GTC" tif) |}].
Proof.
  destruct (format_quantity_returns client (upper symbol) quantity)
    as (qty & t & Hfq & Hcalls).
  exists qty. split; [rewrite Hfq; reflexivity |].
  unfold place_stop_limit_order, catch, bind, ret, raise, log, request, trace.
  rewrite Hfq.
  match goal with
  | |- context [futures_create_order client ?r] =>
      destruct (futures_create_order client r) as [[] |]
  end; cbn [snd]; rewrite !calls_app, Hcalls; reflexivity.
Qed.

End OrderFacts.

(** ** The quantity formatter on the claims' inputs *)

(** C1 (defect in the code).  The claim: the formatted quantity is the
    quantity cut down to a multiple of the step size, so that step ["1"] and
    quantity 5.9 give ["5"].  The code turns the step into a float and
    prints it back, ["1.0"], and keeps as many decimals as that text shows:
    with step ["1"] the quantity 5.9 comes back as ["5.9"], which is no
    multiple of 1. *)
Theorem C1_step_one_keeps_decimals :
  PyFloat.of_string "1" = Some f_one
  /\ PyFloat.repr f_one = "1.0"
  /\ precision_of f_one = 1%nat
  /\ PyFloat.repr f_5_9 = "5.9"
  /\ round_down f_5_9 f_one = inr f_5_9
  /\ format_quantity (sample_client "1") "BTCUSDT" f_5_9
     = (inr "5.9", [Call ExchangeInfo]).
Proof. vm_compute. repeat split. Qed.

(** C9 (defect in the code).  The claim: formatting a formatted quantity
    again changes nothing.  When the step prints in exponent notation the
    precision is taken to be 0 and [rstrip('0')] eats the zeros of the
    whole number: with step 1e16 the quantity 1.5e17 gives ["15"], and 15
    gives [""]; with step ["0.00001"] the quantity 0 gives [""], which
    [float] does not read. *)
Theorem C9_second_pass_differs :
  result (format_quantity (sample_client "10000000000000000") "BTCUSDT"
            f_1_5e17) = inr "15"
  /\ PyFloat.of_string "15" = Some f_15
  /\ result (format_quantity (sample_client "10000000000000000") "BTCUSDT"
               f_15) = inr ""
  /\ result (format_quantity (sample_client "0.00001") "BTCUSDT" f_zero)
     = inr ""
  /\ PyFloat.of_string "" = None.
Proof. vm_compute. repeat split. Qed.

(** C3, the claim as stated fails: with step ["0.001"] the quantity 1e26
    needs more than 28 digits, [quantize] raises, and the fallback returns
    [str(quantity)], ["1e+26"], in exponent notation. *)
Lemma C3_fallback_keeps_exponent :
  PyFloat.of_string "0.001" = Some f_0_001
  /\ round_down f_1e26 f_0_001 = inl InvalidOperation
  /\ result (format_quantity (sample_client "0.001") "BTCUSDT" f_1e26)
     = inr "1e+26"
  /\ minimal_decimal "1e+26" = false.
Proof. vm_compute. repeat split. Qed.

(** C3 (amended).  When the symbol has a lot-size filter, the precision read
    off the step is not zero and the decimal truncation succeeds with a
    finite value, the returned string is a minimal decimal: no exponent, no
    trailing point, no trailing zero behind the point.  Step ["0.001"] and
    quantity 1.23456 give ["1.234"]. *)
Theorem C3_minimal_when_truncated :
  (forall (client : Client) (symbol : string) (quantity : PyFloat.float)
          (f : gmap string string) (step : string)
          (step_size : PyFloat.float) (neg : bool) (m e : Z),
      result (lot_size_filter client symbol) = inr (Some f) ->
      f !! "stepSize" = Some step ->
      PyFloat.of_string step = Some step_size ->
      precision_of step_size <> 0%nat ->
      round_down quantity step_size = inr (PyFloat.Finite neg m e) ->
      exists s,
        result (format_quantity client symbol quantity) = inr s
        /\ minimal_decimal s = true)
  /\ result (format_quantity (sample_client "0.001") "BTCUSDT" f_1_23456)
     = inr "1.234".
Proof.
  split; [| vm_compute; reflexivity].
  intros client symbol quantity f step step_size neg m e Hlot Hstep Hparse
    Hprec Hround.
  rewrite (format_quantity_with_filter client symbol quantity f Hlot).
  unfold round_to_step. rewrite Hstep, Hparse, Hround.
  destruct (precision_of step_size) as [| p]; [contradiction |].
  eexists. split; [reflexivity |].
  apply format_f_stripped_minimal.
Qed.

Lemma C3_minimal_when_truncated_witness :
  exists s,
    result (format_quantity (sample_client "0.001") "BTCUSDT" f_1_23456)
    = inr s
    /\ minimal_decimal s = true.
Proof.
  apply (proj1 C3_minimal_when_truncated
           (sample_client "0.001") "BTCUSDT" f_1_23456
           {[ "filterType" := "LOT_SIZE"; "stepSize" := "0.001" ]}
           "0.001" f_0_001 false 5557441940175192 (-52)).
  - vm_compute. reflexivity.
  - vm_compute. reflexivity.
  - vm_compute. reflexivity.
  - vm_compute. discriminate.
  - vm_compute. reflexivity.
Defined.

(** C6.  When the metadata lookup raises, or the arithmetic on the step of
    the filter found raises, [format_quantity] does not raise: it returns
    [str(quantity)]. *)
Theorem C6_failure_falls_back :
  forall (client : Client) (symbol : string) (quantity : PyFloat.float),
    (exists e, result (lot_size_filter client symbol) = inl e)
    \/ (exists f e,
          result (lot_size_filter client symbol) = inr (Some f)
          /\ round_to_step f quantity = inl e) ->
    result (format_quantity client symbol quantity)
    = inr (PyFloat.repr quantity).
Proof.
  intros client symbol quantity [[e He] | (f & e & Hf & He)].
  - apply format_quantity_catches with (e := e).
    unfold format_quantity_try, bind, result in *.
    destruct (lot_size_filter client symbol) as [[e' | lot] t]; cbn [fst] in *;
      [congruence | discriminate].
  - rewrite (format_quantity_with_filter client symbol quantity f Hf), He.
    reflexivity.
Qed.

Lemma C6_failure_falls_back_witness :
  result (format_quantity offline_client "BTCUSDT" f_5_9) = inr "5.9"
  /\ result (format_quantity (sample_client "0.001") "BTCUSDT" f_1e26)
     = inr "1e+26".
Proof.
  split.
  - change (inr "5.9") with (inr (A := exn) (PyFloat.repr f_5_9)).
    apply C6_failure_falls_back. left.
    exists (TransportError "timeout"). vm_compute. reflexivity.
  - change (inr "1e+26") with (inr (A := exn) (PyFloat.repr f_1e26)).
    apply C6_failure_falls_back. right.
    exists {[ "filterType" := "LOT_SIZE"; "stepSize" := "0.001" ]},
      InvalidOperation.
    split; vm_compute; reflexivity.
Defined.

(** ** The order builder on the claims' inputs *)

(** The sides that market and limit orders accept, in any case. *)
Lemma side_case_insensitive :
  valid_side (upper "buy") = true /\ valid_side (upper "BUY") = true
  /\ valid_side (upper "Buy") = true /\ valid_side (upper "sell") = true
  /\ valid_side (upper "hold") = false.
Proof. vm_compute. repeat split. Qed.

(** C2 (defect in the code).  The claim: for every order kind a side other
    than BUY or SELL fails before any call to the exchange.  Market and
    limit orders check the side; the stop-limit order lacks the check: it
    upper-cases whatever side it is given and sends it.  With side ["hold"]
    the request goes out with side ["HOLD"] and the order is accepted. *)
Theorem C2_stop_limit_sends_any_side :
  (forall (client : Client) (symbol side : string)
          (quantity price stop_price : PyFloat.float) (tif : option string),
      exists req,
        orders_sent (trace (place_stop_limit_order client symbol side quantity
                              price stop_price tif)) = [req]
        /\ o_side req = upper side)
  /\ valid_side (upper "hold") = false
  /\ place_stop_limit_order (sample_client "0.001") "BTCUSDT" "hold"
       f_5_9 f_5_9 f_5_9 None
     = (inr {| orderId := 1 |},
        [Call ExchangeInfo; Log INFO;
         Call (CreateOrder
                 {| o_symbol := "BTCUSDT"; o_side := "HOLD"; o_type := "STOP";
                    o_quantity := "5.9"; o_price := Some "5.9";
                    o_stopPrice := Some "5.9"; o_timeInForce := Some "GTC" |});
         Log INFO; Log DEBUG]).
Proof.
  split; [| vm_compute; split; reflexivity].
  intros client symbol side quantity price stop_price tif.
  destruct (place_stop_limit_order_calls client symbol side quantity price
              stop_price tif) as (qty & _ & Hcalls).
  unfold orders_sent. rewrite Hcalls. eexists. split; reflexivity.
Qed.

(** C4, the claim as stated fails: a limit order with time-in-force ["XYZ"]
    raises nothing; the request goes out with ["XYZ"]. *)
Lemma C4_unknown_time_in_force_is_sent :
  place_limit_order (sample_client "0.001") "BTCUSDT" "BUY" f_5_9 f_5_9
    (Some "XYZ")
  = (inr {| orderId := 1 |},
     [Call ExchangeInfo; Log INFO;
      Call (CreateOrder
              {| o_symbol := "BTCUSDT"; o_side := "BUY"; o_type := "LIMIT";
                 o_quantity := "5.9"; o_price := Some "5.9";
                 o_stopPrice := None; o_timeInForce := Some "XYZ" |});
      Log INFO; Log DEBUG]).
Proof. vm_compute. reflexivity. Qed.

(** C4 (amended).  A limit order with a valid side sends one request; its
    time-in-force is the value given, whatever it is, and GTC when none is
    given. *)
Theorem C4_time_in_force_passes_through :
  forall (client : Client) (symbol side : string)
         (quantity price : PyFloat.float) (tif : option string),
    valid_side (upper side) = true ->
    exists req,
      orders_sent (trace (place_limit_order client symbol side quantity price
                            tif)) = [req]
      /\ o_type req = "LIMIT"
      /\ o_timeInForce req
         = Some match tif with Some v => v | None => "GTC" end.
Proof.
  intros client symbol side quantity price tif Hside.
  destruct (place_limit_order_calls client symbol side quantity price tif
              Hside) as (qty & _ & Hcalls).
  unfold orders_sent. rewrite Hcalls. eexists. split; [reflexivity |].
  split; [reflexivity |]. destruct tif; reflexivity.
Qed.

Lemma C4_time_in_force_passes_through_witness :
  exists req,
    orders_sent (trace (place_limit_order (sample_client "0.001") "btcusdt"
                          "buy" f_5_9 f_5_9 None)) = [req]
    /\ o_type req = "LIMIT"
    /\ o_timeInForce req = Some "GTC".
Proof.
  apply (C4_time_in_force_passes_through (sample_client "0.001") "btcusdt"
           "buy" f_5_9 f_5_9 None).
  vm_compute. reflexivity.
Defined.

(** C5, the claim as stated fails: a stop-limit order with limit price 0 and
    stop price 0 raises nothing; the request goes out with both. *)
Lemma C5_zero_prices_are_sent :
  place_stop_limit_order (sample_client "0.001") "BTCUSDT" "SELL" f_5_9
    f_zero f_zero None
  = (inr {| orderId := 1 |},
     [Call ExchangeInfo; Log INFO;
      Call (CreateOrder
              {| o_symbol := "BTCUSDT"; o_side := "SELL"; o_type := "STOP";
                 o_quantity := "5.9"; o_price := Some "0.0";
                 o_stopPrice := Some "0.0"; o_timeInForce := Some "GTC" |});
      Log INFO; Log DEBUG]).
Proof. vm_compute. reflexivity. Qed.

(** C5 (amended).  A stop-limit order sends one request; its type is the
    constant STOP, which is not LIMIT, and it carries the limit price and the
    stop price, each the text of the float given, whatever its sign. *)
Theorem C5_stop_limit_carries_both_prices :
  forall (client : Client) (symbol side : string)
         (quantity price stop_price : PyFloat.float) (tif : option string),
    exists req,
      orders_sent (trace (place_stop_limit_order client symbol side quantity
                            price stop_price tif)) = [req]
      /\ o_type req = "STOP"
      /\ o_type req <> "LIMIT"
      /\ o_price req = Some (PyFloat.repr price)
      /\ o_stopPrice req = Some (PyFloat.repr stop_price).
Proof.
  intros client symbol side quantity price stop_price tif.
  destruct (place_stop_limit_order_calls client symbol side quantity price
              stop_price tif) as (qty & _ & Hcalls).
  unfold orders_sent. rewrite Hcalls. eexists. split; [reflexivity |].
  cbn [o_type o_price o_stopPrice]. repeat split. discriminate.
Qed.

(** C7, the claim as stated fails: a market order for the empty symbol
    raises nothing; the metadata is asked for and the request goes out with
    the empty symbol. *)
Lemma C7_empty_symbol_is_sent :
  place_market_order (sample_client "0.001") "" "BUY" f_5_9
  = (inr {| orderId := 1 |},
     [Call ExchangeInfo; Log ERROR; Log ERROR; Log INFO;
      Call (CreateOrder
              {| o_symbol := ""; o_side := "BUY"; o_type := "MARKET";
                 o_quantity := "5.9"; o_price := None; o_stopPrice := None;
                 o_timeInForce := None |});
      Log INFO; Log DEBUG]).
Proof. vm_compute. reflexivity. Qed.

(** C7 (amended).  Every request that a market, limit or stop-limit order
    sends carries the symbol in upper case, and a cancellation asks the
    exchange with the symbol in upper case; no symbol is turned away. *)
Theorem C7_symbol_is_upper_cased :
  forall (client : Client) (symbol side : string)
         (quantity price stop_price : PyFloat.float) (tif : option string)
         (order_id : Z),
    Forall (fun req => o_symbol req = upper symbol)
      (orders_sent (trace (place_market_order client symbol side quantity)))
    /\ Forall (fun req => o_symbol req = upper symbol)
         (orders_sent (trace (place_limit_order client symbol side quantity
                                price tif)))
    /\ Forall (fun req => o_symbol req = upper symbol)
         (orders_sent (trace (place_stop_limit_order client symbol side
                                quantity price stop_price tif)))
    /\ calls (trace (cancel_order client symbol order_id))
       = [CancelOrder (upper symbol) order_id].
Proof.
  intros client symbol side quantity price stop_price tif order_id.
  repeat split.
  - destruct (valid_side (upper side)) eqn:Hside.
    + destruct (place_market_order_calls client symbol side quantity Hside)
        as (qty & _ & Hcalls).
      unfold orders_sent. rewrite Hcalls. repeat constructor.
    + rewrite (place_market_order_invalid_side client symbol side quantity
                 Hside).
      constructor.
  - destruct (valid_side (upper side)) eqn:Hside.
    + destruct (place_limit_order_calls client symbol side quantity price tif
                  Hside) as (qty & _ & Hcalls).
      unfold orders_sent. rewrite Hcalls. repeat constructor.
    + rewrite (place_limit_order_invalid_side client symbol side quantity
                 price tif Hside).
      constructor.
  - destruct (place_stop_limit_order_calls client symbol side quantity price
                stop_price tif) as (qty & _ & Hcalls).
    unfold orders_sent. rewrite Hcalls. repeat constructor.
  - unfold cancel_order, catch, bind, request, log, ret, raise, trace.
    destruct (futures_cancel_order client (upper symbol) order_id);
      reflexivity.
Qed.

(** C8, the claim as stated fails: a market order for quantity 0 is not
    turned away, it is formatted and sent with quantity ["0"]; a quantity
    below the step 0.001, 0.0004, is cut to ["0"] and sent as well. *)
Lemma C8_zero_quantity_is_sent :
  orders_sent (trace (place_market_order (sample_client "0.001") "BTCUSDT"
                        "BUY" f_zero))
  = [ {| o_symbol := "BTCUSDT"; o_side := "BUY"; o_type := "MARKET";
         o_quantity := "0"; o_price := None; o_stopPrice := None;
         o_timeInForce := None |} ]
  /\ result (place_market_order (sample_client "0.001") "BTCUSDT" "BUY"
               f_zero) = inr {| orderId := 1 |}
  /\ orders_sent (trace (place_market_order (sample_client "0.001") "BTCUSDT"
                           "BUY" f_0_0004))
     = [ {| o_symbol := "BTCUSDT"; o_side := "BUY"; o_type := "MARKET";
            o_quantity := "0"; o_price := None; o_stopPrice := None;
            o_timeInForce := None |} ]
  /\ result (place_market_order (sample_client "0.001") "BTCUSDT" "BUY"
               f_0_0004) = inr {| orderId := 1 |}.
Proof. vm_compute. repeat split. Qed.

(** C8 (amended).  No order placement looks at the quantity, before or
    after formatting it: every quantity, zero, negative or below one step,
    is formatted, and one request carrying the formatted quantity, whatever
    it is, is sent; by a stop-limit order with any side, by a market or a
    limit order when the side is valid. *)
Theorem C8_every_quantity_is_sent :
  forall (client : Client) (symbol side : string)
         (quantity price stop_price : PyFloat.float) (tif : option string),
    exists qty,
      result (format_quantity client (upper symbol) quantity) = inr qty
      /\ map o_quantity
           (orders_sent (trace (place_stop_limit_order client symbol side
                                  quantity price stop_price tif))) = [qty]
      /\ (valid_side (upper side) = true ->
          map o_quantity
            (orders_sent (trace (place_market_order client symbol side
                                   quantity))) = [qty]
          /\ map o_quantity
               (orders_sent (trace (place_limit_order client symbol side
                                      quantity price tif))) = [qty]).
Proof.
  intros client symbol side quantity price stop_price tif.
  destruct (place_stop_limit_order_calls client symbol side quantity price
              stop_price tif) as (qty & Hqty & Hstop).
  exists qty. split; [exact Hqty |]. split.
  - unfold orders_sent. rewrite Hstop. reflexivity.
  - intros Hside.
    destruct (place_market_order_calls client symbol side quantity Hside)
      as (qty1 & Hqty1 & Hmarket).
    destruct (place_limit_order_calls client symbol side quantity price tif
                Hside) as (qty2 & Hqty2 & Hlimit).
    assert (qty1 = qty) by congruence. assert (qty2 = qty) by congruence.
    subst qty1 qty2. unfold orders_sent.
    rewrite Hmarket, Hlimit. split; reflexivity.
Qed.

Lemma C8_every_quantity_is_sent_witness :
  exists qty,
    result (format_quantity (sample_client "0.001") (upper "btcusdt")
              f_0_0004)
    = inr qty
    /\ map o_quantity
         (orders_sent (trace (place_stop_limit_order (sample_client "0.001")
                                "btcusdt" "sell" f_0_0004 f_5_9 f_5_9 None)))
       = [qty]
    /\ map o_quantity
         (orders_sent (trace (place_market_order (sample_client "0.001")
                                "btcusdt" "sell" f_0_0004))) = [qty]
    /\ map o_quantity
         (orders_sent (trace (place_limit_order (sample_client "0.001")
                                "btcusdt" "sell" f_0_0004 f_5_9 None)))
       = [qty].
Proof.
  destruct (C8_every_quantity_is_sent (sample_client "0.001") "btcusdt"
              "sell" f_0_0004 f_5_9 f_5_9 None) as (qty & H1 & H2 & H3).
  exists qty. split; [exact H1 |]. split; [exact H2 |].
  apply H3. vm_compute. reflexivity.
Defined.

(** ** The query layer *)

(** C10 (defect in the code).  The price query and the cancellation hand
    the symbol to the exchange in upper case, as every other function that
    takes a symbol does; the open-orders query alone hands over the filter
    it was given as written.  Asked for the open orders of ["btcusdt"], it
    asks the exchange for ["btcusdt"], where the price query and the
    cancellation ask for ["BTCUSDT"]. *)
Theorem C10_open_orders_keeps_case :
  calls (trace (get_open_orders (sample_client "0.001") (Some "btcusdt")))
  = [GetOpenOrders (Some "btcusdt")]
  /\ calls (trace (get_current_price (sample_client "0.001") "btcusdt"))
     = [SymbolTicker "BTCUSDT"]
  /\ calls (trace (cancel_order (sample_client "0.001") "btcusdt" 7))
     = [CancelOrder "BTCUSDT" 7]
  /\ (forall (client : Client) (symbol : string) (filter : option string),
        calls (trace (get_current_price client symbol))
        = [SymbolTicker (upper symbol)]
        /\ calls (trace (get_open_orders client filter))
           = [GetOpenOrders filter]).
Proof.
  split; [vm_compute; reflexivity |]. split; [vm_compute; reflexivity |].
  split; [vm_compute; reflexivity |].
  intros client symbol filter. split.
  - unfold get_current_price, catch, bind, request, log, ret, raise, trace.
    destruct (futures_symbol_ticker client (upper symbol)) as [e | ticker];
      [reflexivity |].
    destruct (PyFloat.of_string ticker); reflexivity.
  - unfold get_open_orders, catch, bind, request, log, ret, raise, trace.
    destruct (futures_get_open_orders client filter); reflexivity.
Qed.

(** ** What [quantize] does guarantee *)

Section QuantizeFacts.

Lemma rescale_down_exact (c e t : Z) :
  t <= e -> PyDecimal.rescale_down c e t = c * 10 ^ (e - t).
Proof.
  intros H. unfold PyDecimal.rescale_down.
  destruct (t <=? e) eqn:E; [reflexivity |].
  apply Z.leb_gt in E. lia.
Qed.

Lemma rescale_down_truncates (c e t : Z) :
  0 <= c -> e < t ->
  PyDecimal.rescale_down c e t * 10 ^ (t - e) <= c
  /\ c < (PyDecimal.rescale_down c e t + 1) * 10 ^ (t - e).
Proof.
  intros Hc H. unfold PyDecimal.rescale_down.
  destruct (t <=? e) eqn:E; [apply Z.leb_le in E; lia |].
  assert (Hpow : 0 < 10 ^ (t - e)) by (apply Z.pow_pos_nonneg; lia).
  pose proof (Z.div_mod c (10 ^ (t - e)) ltac:(lia)) as Hdm.
  pose proof (Z.mod_pos_bound c (10 ^ (t - e)) Hpow) as Hmod.
  nia.
Qed.

(** Cutting a finite decimal to the exponent of a finite step, when it does
    not raise, keeps the sign, takes the exponent of the step (not a multiple
    of the step's value) and drops the digits beyond it. *)
Lemma quantize_down_finite (neg sneg : bool) (c e sc t : Z)
  (d : PyDecimal.decimal) :
  0 <= c ->
  PyDecimal.quantize_down (PyDecimal.Fin neg c e) (PyDecimal.Fin sneg sc t)
  = Some d ->
  exists c',
    d = PyDecimal.Fin neg c' t
    /\ (t <= e -> c' = c * 10 ^ (e - t))
    /\ (e < t -> c' * 10 ^ (t - e) <= c < (c' + 1) * 10 ^ (t - e)).
Proof.
  intros Hc. unfold PyDecimal.quantize_down.
  destruct (negb _); [discriminate |].
  destruct (c =? 0) eqn:E0.
  - apply Z.eqb_eq in E0. subst c. intros H. injection H as <-.
    exists 0. split; [reflexivity |]. split; intros Ht; [lia |].
    assert (0 < 10 ^ (t - e)) by (apply Z.pow_pos_nonneg; lia). lia.
  - destruct (_ <? _); [discriminate |].
    destruct (_ <? _); [discriminate |].
    destruct (_ <? _); [discriminate |].
    destruct (_ <? _); [discriminate |].
    intros H. injection H as <-.
    exists (PyDecimal.rescale_down c e t). split; [reflexivity |].
    split; intros Ht.
    + apply rescale_down_exact, Ht.
    + apply rescale_down_truncates; assumption.
Qed.

End QuantizeFacts.

(** * Further properties of the bot *)

(** ** Symbols and sides in any case *)

Section CaseFacts.

Lemma upper_char_idempotent (a : ascii) :
  upper_char (upper_char a) = upper_char a.
Proof.
  destruct a as [[] [] [] [] [] [] [] []]; vm_compute; reflexivity.
Qed.

Lemma upper_idempotent (s : string) : upper (upper s) = upper s.
Proof.
  induction s as [| a s IH]; [reflexivity |].
  cbn [upper]. rewrite upper_char_idempotent, IH. reflexivity.
Qed.

Variable client : Client.

(** X1.  The metadata returned for a symbol is an entry of the exchange's
    answer, and its name is the symbol in upper case. *)
Theorem get_symbol_info_found (symbol : string) (si : symbol_info) :
  result (get_symbol_info client symbol) = inr si ->
  exists infos,
    futures_exchange_info client = inr infos
    /\ In si infos
    /\ si_symbol si = upper symbol.
Proof.
  unfold get_symbol_info, request, catch, bind, ret, raise, log, result.
  destruct (futures_exchange_info client) as [e | infos]; [discriminate |].
  intros H. exists infos. split; [reflexivity |].
  assert (Hfind : find_symbol infos (upper symbol) = Some si).
  { destruct (find_symbol infos (upper symbol)); [| discriminate].
    cbn [fst] in H. congruence. }
  clear H. induction infos as [| x infos IH]; [discriminate |].
  cbn [find_symbol] in Hfind.
  destruct (String.eqb (si_symbol x) (upper symbol)) eqn:E.
  - injection Hfind as <-. apply String.eqb_eq in E.
    split; [left; reflexivity | exact E].
  - destruct (IH Hfind) as [Hin Hname]. split; [right; exact Hin | exact Hname].
Qed.

(** X2.  When no entry of the exchange's answer carries the symbol in upper
    case, the lookup raises [ValueError] whose text holds the symbol as it
    was given, after one call to the exchange and one error line. *)
Theorem get_symbol_info_missing (symbol : string) (infos : list symbol_info) :
  futures_exchange_info client = inr infos ->
  Forall (fun si => si_symbol si <> upper symbol) infos ->
  get_symbol_info client symbol
  = (inl (ValueError ("Symbol " +:+ symbol +:+ " not found")),
     [Call ExchangeInfo; Log ERROR]).
Proof.
  intros Hinfo Hall.
  unfold get_symbol_info, request, catch, bind, ret, raise, log.
  rewrite Hinfo.
  assert (Hfind : find_symbol infos (upper symbol) = None).
  { clear Hinfo. induction Hall as [| x l Hx _ IH]; [reflexivity |].
    cbn [find_symbol].
    destruct (String.eqb (si_symbol x) (upper symbol)) eqn:E; [| exact IH].
    apply String.eqb_eq in E. contradiction. }
  rewrite Hfind. reflexivity.
Qed.

(** X3.  [format_quantity] never raises, whatever the exchange answers: it
    returns a string, asks the exchange for its metadata exactly once and
    sends no order. *)
Theorem format_quantity_never_raises (symbol : string)
  (quantity : PyFloat.float) :
  exists s,
    result (format_quantity client symbol quantity) = inr s
    /\ calls (trace (format_quantity client symbol quantity)) = [ExchangeInfo]
    /\ orders_sent (trace (format_quantity client symbol quantity)) = [].
Proof.
  destruct (format_quantity_returns client symbol quantity)
    as (s & t & Hfq & Hcalls).
  exists s. rewrite Hfq. unfold orders_sent, result, trace. cbn [fst snd].
  rewrite Hcalls. repeat split.
Qed.

(** X4.  The formatter does not depend on the case of the symbol: it
    returns the same string and asks the exchange the same as for the
    symbol in upper case. *)
Theorem format_quantity_any_case (symbol : string) (quantity : PyFloat.float) :
  result (format_quantity client symbol quantity)
  = result (format_quantity client (upper symbol) quantity)
  /\ calls (trace (format_quantity client symbol quantity))
     = calls (trace (format_quantity client (upper symbol) quantity)).
Proof.
  assert (H : format_quantity client symbol quantity
              = format_quantity client (upper symbol) quantity).
  { unfold format_quantity, format_quantity_try, lot_size_filter,
      get_symbol_info, request, catch, bind, lift, ret, raise, log.
    rewrite upper_idempotent.
    destruct (futures_exchange_info client) as [e | infos]; [reflexivity |].
    destruct (find_symbol infos (upper symbol)); reflexivity. }
  rewrite H. split; reflexivity.
Qed.


(** X6.  A filter without a [filterType] key met before any [LOT_SIZE]
    filter makes the formatter fall back to [str(quantity)], with one error
    line; the filters behind it are not looked at. *)
Theorem format_quantity_malformed_filter (symbol : string)
  (quantity : PyFloat.float) (infos : list symbol_info) (si : symbol_info)
  (before after : list (gmap string string)) (bad : gmap string string) :
  futures_exchange_info client = inr infos ->
  find_symbol infos (upper symbol) = Some si ->
  si_filters si = before ++ bad :: after ->
  Forall (fun f : gmap string string =>
            exists ty, f !! "filterType" = Some ty /\ ty <> "LOT_SIZE")
    before ->
  bad !! "filterType" = None ->
  format_quantity client symbol quantity
  = (inr (PyFloat.repr quantity), [Call ExchangeInfo; Log ERROR]).
Proof.
  intros Hinfo Hfind Hsplit Hall Hbad.
  assert (Hlot : find_lot_size (si_filters si) = inl (KeyError "filterType")).
  { rewrite Hsplit. clear Hsplit.
    induction Hall as [| f l (ty & Hty & Hne) _ IH].
    - cbn [app find_lot_size]. rewrite Hbad. reflexivity.
    - cbn [app find_lot_size]. rewrite Hty.
      destruct (String.eqb ty "LOT_SIZE") eqn:E; [| exact IH].
      apply String.eqb_eq in E. contradiction. }
  unfold format_quantity, format_quantity_try, lot_size_filter,
    get_symbol_info, request, catch, bind, lift, ret, raise, log.
  rewrite Hinfo, Hfind. cbn [fst snd]. rewrite Hlot. reflexivity.
Qed.

End CaseFacts.

(** ** Orders: what is sent and what comes back *)

Section PlacementFacts.

Variable client : Client.

(** X7.  Placing an order does not depend on the case of the symbol or of
    the side: result and trace are those for both in upper case. *)
Theorem orders_any_case (symbol side : string)
  (quantity price stop_price : PyFloat.float) (tif : option string) :
  place_market_order client symbol side quantity
  = place_market_order client (upper symbol) (upper side) quantity
  /\ place_limit_order client symbol side quantity price tif
     = place_limit_order client (upper symbol) (upper side) quantity price tif
  /\ place_stop_limit_order client symbol side quantity price stop_price tif
     = place_stop_limit_order client (upper symbol) (upper side) quantity
         price stop_price tif.
Proof.
  unfold place_market_order, place_limit_order, place_stop_limit_order.
  rewrite !upper_idempotent. repeat split.
Qed.

(** X8.  A market or limit order whose side, in upper case, is neither BUY
    nor SELL raises [ValueError] with nothing asked of the exchange: no
    metadata call, no order. *)
Theorem invalid_side_is_rejected_locally (symbol side : string)
  (quantity price : PyFloat.float) (tif : option string) :
  valid_side (upper side) = false ->
  result (place_market_order client symbol side quantity)
  = inl (ValueError "Side must be 'BUY' or 'SELL'")
  /\ calls (trace (place_market_order client symbol side quantity)) = []
  /\ result (place_limit_order client symbol side quantity price tif)
     = inl (ValueError "Side must be 'BUY' or 'SELL'")
  /\ calls (trace (place_limit_order client symbol side quantity price tif))
     = [].
Proof.
  intros H.
  rewrite (place_market_order_invalid_side client symbol side quantity H).
  rewrite (place_limit_order_invalid_side client symbol side quantity price
             tif H).
  repeat split.
Qed.

(** X9.  An order that passes the side check is sent once, and what the
    caller gets is what the exchange answered to that request: its order on
    success, its exception, unchanged, on failure. *)
Theorem placed_order_returns_exchange_answer (symbol side : string)
  (quantity price stop_price : PyFloat.float) (tif : option string) :
  valid_side (upper side) = true ->
  exists qty,
    result (format_quantity client (upper symbol) quantity) = inr qty
    /\ result (place_market_order client symbol side quantity)
       = futures_create_order client
           {| o_symbol := upper symbol; o_side := upper side;
              o_type := "MARKET"; o_quantity := qty; o_price := None;
              o_stopPrice := None; o_timeInForce := None |}
    /\ result (place_limit_order client symbol side quantity price tif)
       = futures_create_order client
           {| o_symbol := upper symbol; o_side := upper side;
              o_type := "LIMIT"; o_quantity := qty;
              o_price := Some (PyFloat.repr price); o_stopPrice := None;
              o_timeInForce := Some (default "GTC" tif) |}
    /\ result (place_stop_limit_order client symbol side quantity price
                 stop_price tif)
       = futures_create_order client
           {| o_symbol := upper symbol; o_side := upper side;
              o_type := "STOP"; o_quantity := qty;
              o_price := Some (PyFloat.repr price);
              o_stopPrice := Some (PyFloat.repr stop_price);
              o_timeInForce := Some (default "GTC" tif) |}.
Proof.
  intros H.
  destruct (format_quantity_returns client (upper symbol) quantity)
    as (qty & t & Hfq & _).
  exists qty. split; [rewrite Hfq; reflexivity |].
  unfold place_market_order, place_limit_order, place_stop_limit_order,
    catch, bind, ret, raise, log, request, result.
  rewrite H, Hfq.
  repeat split;
    match goal with
    | |- context [futures_create_order client ?r] =>
        destruct (futures_create_order client r) as [[] |]
    end; reflexivity.
Qed.

(** X10.  Cancelling an order and listing the open orders hand back what the
    exchange answered, its exception unchanged when it raised; the order id
    goes out as given. *)
Theorem cancel_and_list_return_exchange_answer (symbol : string)
  (order_id : Z) (filter : option string) :
  result (cancel_order client symbol order_id)
  = futures_cancel_order client (upper symbol) order_id
  /\ result (get_open_orders client filter)
     = futures_get_open_orders client filter.
Proof.
  unfold cancel_order, get_open_orders, catch, bind, ret, raise, log,
    request, result.
  split.
  - destruct (futures_cancel_order client (upper symbol) order_id);
      reflexivity.
  - destruct (futures_get_open_orders client filter); reflexivity.
Qed.

(** X11.  The price returned is the float that the ticker's price text
    denotes; a text that is no float literal makes the query raise. *)
Theorem get_current_price_reads_ticker (symbol : string) :
  (forall price,
      result (get_current_price client symbol) = inr price ->
      exists ticker,
        futures_symbol_ticker client (upper symbol) = inr ticker
        /\ PyFloat.of_string ticker = Some price)
  /\ (forall ticker,
        futures_symbol_ticker client (upper symbol) = inr ticker ->
        PyFloat.of_string ticker = None ->
        exists msg,
          get_current_price client symbol
          = (inl (ValueError msg),
             [Call (SymbolTicker (upper symbol)); Log ERROR])).
Proof.
  unfold get_current_price, catch, bind, ret, raise, log, request, result.
  split.
  - intros price.
    destruct (futures_symbol_ticker client (upper symbol)) as [e | ticker];
      [discriminate |].
    destruct (PyFloat.of_string ticker) as [p |] eqn:E; [| discriminate].
    cbn [fst]. intros H. exists ticker. split; congruence.
  - intros ticker -> ->. eexists. reflexivity.
Qed.

(** X12.  Whatever operation of the bot raises, the last thing it did was to
    log an error: no exception leaves the bot unlogged. *)
Theorem failure_is_logged (symbol side : string)
  (quantity price stop_price : PyFloat.float) (tif filter : option string)
  (order_id : Z) (e : exn) :
  (result (get_symbol_info client symbol) = inl e ->
   last (trace (get_symbol_info client symbol)) = Some (Log ERROR))
  /\ (result (get_current_price client symbol) = inl e ->
      last (trace (get_current_price client symbol)) = Some (Log ERROR))
  /\ (result (place_market_order client symbol side quantity) = inl e ->
      last (trace (place_market_order client symbol side quantity))
      = Some (Log ERROR))
  /\ (result (place_limit_order client symbol side quantity price tif)
      = inl e ->
      last (trace (place_limit_order client symbol side quantity price tif))
      = Some (Log ERROR))
  /\ (result (place_stop_limit_order client symbol side quantity price
                stop_price tif) = inl e ->
      last (trace (place_stop_limit_order client symbol side quantity price
                     stop_price tif)) = Some (Log ERROR))
  /\ (result (cancel_order client symbol order_id) = inl e ->
      last (trace (cancel_order client symbol order_id)) = Some (Log ERROR))
  /\ (result (get_open_orders client filter) = inl e ->
      last (trace (get_open_orders client filter)) = Some (Log ERROR)).
Proof.
  assert (Hlast : forall t : list event, last (t ++ [Log ERROR])
                                         = Some (Log ERROR)).
  { intros t. apply last_snoc. }
  repeat split.
  - unfold get_symbol_info, catch, bind, ret, raise, log, request, result,
      trace.
    destruct (futures_exchange_info client) as [e' | infos]; [reflexivity |].
    destruct (find_symbol infos (upper symbol)); [discriminate | reflexivity].
  - unfold get_current_price, catch, bind, ret, raise, log, request, result,
      trace.
    destruct (futures_symbol_ticker client (upper symbol)) as [e' | ticker];
      [reflexivity |].
    destruct (PyFloat.of_string ticker); [discriminate | reflexivity].
  - destruct (valid_side (upper side)) eqn:Hside.
    + destruct (format_quantity_returns client (upper symbol) quantity)
        as (qty & t & Hfq & _).
      unfold place_market_order, catch, bind, ret, raise, log, request,
        result, trace.
      rewrite Hside, Hfq.
      match goal with
      | |- context [futures_create_order client ?r] =>
          destruct (futures_create_order client r) as [[] |]
      end; cbn [fst snd]; try discriminate; intros _;
        rewrite ?app_assoc, ?app_nil_r; apply Hlast.
    + rewrite (place_market_order_invalid_side client symbol side quantity
                 Hside). reflexivity.
  - destruct (valid_side (upper side)) eqn:Hside.
    + destruct (format_quantity_returns client (upper symbol) quantity)
        as (qty & t & Hfq & _).
      unfold place_limit_order, catch, bind, ret, raise, log, request,
        result, trace.
      rewrite Hside, Hfq.
      match goal with
      | |- context [futures_create_order client ?r] =>
          destruct (futures_create_order client r) as [[] |]
      end; cbn [fst snd]; try discriminate; intros _;
        rewrite ?app_assoc, ?app_nil_r; apply Hlast.
    + rewrite (place_limit_order_invalid_side client symbol side quantity
                 price tif Hside). reflexivity.
  - destruct (format_quantity_returns client (upper symbol) quantity)
      as (qty & t & Hfq & _).
    unfold place_stop_limit_order, catch, bind, ret, raise, log, request,
      result, trace.
    rewrite Hfq.
    match goal with
    | |- context [futures_create_order client ?r] =>
        destruct (futures_create_order client r) as [[] |]
    end; cbn [fst snd]; try discriminate; intros _;
      rewrite ?app_assoc, ?app_nil_r; apply Hlast.
  - unfold cancel_order, catch, bind, ret, raise, log, request, result, trace.
    destruct (futures_cancel_order client (upper symbol) order_id);
      [reflexivity | discriminate].
  - unfold get_open_orders, catch, bind, ret, raise, log, request, result,
      trace.
    destruct (futures_get_open_orders client filter);
      [reflexivity | discriminate].
Qed.

End PlacementFacts.

(** ** The account *)

Section AccountFacts.

Lemma dict_set_keys {V} (d : list (string * V)) (k : string) (v : V)
  (x : string) :
  x ∈ map fst (Account.dict_set d k v) -> x ∈ map fst d \/ x = k.
Proof.
  induction d as [| [k' v'] d IH]; cbn [Account.dict_set map fst].
  - intros H. apply list_elem_of_singleton in H. right. exact H.
  - destruct (String.eqb k' k) eqn:E; cbn [map fst]; intros H.
    + left. exact H.
    + apply elem_of_cons in H. destruct H as [-> | H].
      * left. apply elem_of_cons. left. reflexivity.
      * destruct (IH H) as [Hin | ->]; [| right; reflexivity].
        left. apply elem_of_cons. right. exact Hin.
Qed.

Lemma dict_set_NoDup {V} (d : list (string * V)) (k : string) (v : V) :
  NoDup (map fst d) -> NoDup (map fst (Account.dict_set d k v)).
Proof.
  induction d as [| [k' v'] d IH]; cbn [Account.dict_set map fst].
  - intros _. apply NoDup_singleton.
  - intros H. apply NoDup_cons in H. destruct H as [Hnotin Hnodup].
    destruct (String.eqb k' k) eqn:E; cbn [map fst].
    + apply NoDup_cons. split; assumption.
    + apply NoDup_cons. split; [| apply IH, Hnodup].
      intros Hin. apply dict_set_keys in Hin. destruct Hin as [Hin | ->].
      * contradiction.
      * rewrite String.eqb_refl in E. discriminate.
Qed.

Lemma dict_set_elem {V} (d : list (string * V)) (k : string) (v : V)
  (kv : string * V) :
  kv ∈ Account.dict_set d k v -> kv ∈ d \/ kv = (k, v).
Proof.
  induction d as [| [k' v'] d IH]; cbn [Account.dict_set].
  - intros H. apply list_elem_of_singleton in H. right. exact H.
  - destruct (String.eqb k' k) eqn:E; intros H.
    + apply elem_of_cons in H. destruct H as [-> | H].
      * right. apply String.eqb_eq in E. subst k'. reflexivity.
      * left. apply elem_of_cons. right. exact H.
    + apply elem_of_cons in H. destruct H as [-> | H].
      * left. apply elem_of_cons. left. reflexivity.
      * destruct (IH H) as [Hin | ->]; [| right; reflexivity].
        left. apply elem_of_cons. right. exact Hin.
Qed.

Lemma dict_set_has_key {V} (d : list (string * V)) (k : string) (v : V) :
  k ∈ map fst (Account.dict_set d k v).
Proof.
  induction d as [| [k' v'] d IH]; cbn [Account.dict_set map fst].
  - apply elem_of_cons. left. reflexivity.
  - destruct (String.eqb k' k) eqn:E; cbn [map fst].
    + apply String.eqb_eq in E. subst k'. apply elem_of_cons. left.
      reflexivity.
    + apply elem_of_cons. right. exact IH.
Qed.

Lemma dict_set_keeps_keys {V} (d : list (string * V)) (k : string) (v : V)
  (x : string) :
  x ∈ map fst d -> x ∈ map fst (Account.dict_set d k v).
Proof.
  induction d as [| [k' v'] d IH]; cbn [Account.dict_set map fst].
  - intros H. apply elem_of_nil in H. contradiction.
  - intros H. destruct (String.eqb k' k); cbn [map fst]; [exact H |].
    apply elem_of_cons in H. apply elem_of_cons.
    destruct H as [-> | H]; [left; reflexivity | right; apply IH, H].
Qed.

(** What the comprehension keeps: positive amounts under distinct names,
    each the amount of an asset of the answer, and a name for every asset
    with a positive amount. *)
Lemma positive_balances_spec (assets : list (gmap string string)) :
  forall acc out,
    Account.positive_balances assets acc = inr out ->
    (Forall (fun kv => Account.positive kv.2 = true) acc ->
     Forall (fun kv => Account.positive kv.2 = true) out)
    /\ (NoDup (map fst acc) -> NoDup (map fst out))
    /\ (forall kv, kv ∈ out ->
          kv ∈ acc
          \/ exists asset,
               asset ∈ assets /\ asset !! "asset" = Some kv.1
               /\ Account.float_at asset "walletBalance" = inr kv.2)
    /\ (forall x, x ∈ map fst acc -> x ∈ map fst out)
    /\ (forall asset name b,
          asset ∈ assets -> asset !! "asset" = Some name ->
          Account.float_at asset "walletBalance" = inr b ->
          Account.positive b = true -> name ∈ map fst out).
Proof.
  induction assets as [| asset rest IH]; intros acc out;
    cbn [Account.positive_balances].
  - intros H. injection H as <-. repeat split; auto.
    intros a name b Hin. apply elem_of_nil in Hin. contradiction.
  - destruct (Account.float_at asset "walletBalance") as [e | balance] eqn:Hb;
      [discriminate |].
    destruct (Account.positive balance) eqn:Hpos.
    + destruct (asset !! "asset") as [name |] eqn:Hname; [| discriminate].
      intros H. destruct (IH _ _ H) as (H1 & H2 & H3 & H4 & H5).
      repeat split.
      * intros Hacc. apply H1. clear -Hacc Hpos.
        induction acc as [| [k' v'] acc IHacc]; cbn [Account.dict_set].
        -- repeat constructor. exact Hpos.
        -- apply Forall_cons in Hacc. destruct Hacc as [Hv Hacc].
           destruct (String.eqb k' name).
           ++ apply Forall_cons. split; [exact Hpos | exact Hacc].
           ++ apply Forall_cons. split; [exact Hv | apply IHacc, Hacc].
      * intros Hacc. apply H2, dict_set_NoDup, Hacc.
      * intros kv Hkv. destruct (H3 kv Hkv) as [Hin | (a & Ha & Hn & Hw)].
        -- apply dict_set_elem in Hin. destruct Hin as [Hin | ->].
           ++ left. exact Hin.
           ++ right. exists asset. split; [apply elem_of_cons; left; reflexivity |].
              split; assumption.
        -- right. exists a. split; [apply elem_of_cons; right; exact Ha |].
           split; assumption.
      * intros x Hx. apply H4, dict_set_keeps_keys, Hx.
      * intros a name' b Ha Hn Hw Hp. apply elem_of_cons in Ha.
        destruct Ha as [-> | Ha].
        -- assert (name' = name) by congruence. subst name'.
           apply H4, dict_set_has_key.
        -- apply (H5 a name' b Ha Hn Hw Hp).
    + intros H. destruct (IH _ _ H) as (H1 & H2 & H3 & H4 & H5).
      repeat split; auto.
      * intros kv Hkv. destruct (H3 kv Hkv) as [Hin | (a & Ha & Hn & Hw)].
        -- left. exact Hin.
        -- right. exists a. split; [apply elem_of_cons; right; exact Ha |].
           split; assumption.
      * intros a name' b Ha Hn Hw Hp. apply elem_of_cons in Ha.
        destruct Ha as [-> | Ha].
        -- congruence.
        -- apply (H5 a name' b Ha Hn Hw Hp).
Qed.

Variable client : Account.FullClient.

(** What a successful balance query read. *)
Lemma get_account_balance_ok (info : Account.balance_info) :
  Account.result (Account.get_account_balance client) = inr info ->
  exists acct assets,
    Account.futures_account client = inr acct
    /\ Account.acc_assets acct = Some assets
    /\ Account.positive_balances assets [] = inr (Account.balances info)
    /\ Account.float_at (Account.acc_fields acct) "totalWalletBalance"
       = inr (Account.totalBalance info)
    /\ Account.float_at (Account.acc_fields acct) "availableBalance"
       = inr (Account.availableBalance info).
Proof.
  unfold Account.get_account_balance, Account.catch, Account.bind,
    Account.request, Account.lift, Account.log, Account.ret, Account.raise,
    Account.result.
  destruct (Account.futures_account client) as [e | acct]; [discriminate |].
  destruct (Account.acc_assets acct) as [assets |] eqn:Hassets;
    [| discriminate].
  destruct (Account.positive_balances assets []) as [e | bal] eqn:Hbal;
    [discriminate |].
  destruct (Account.float_at (Account.acc_fields acct) "totalWalletBalance")
    as [e | total] eqn:Htotal; [discriminate |].
  destruct (Account.float_at (Account.acc_fields acct) "availableBalance")
    as [e | avail] eqn:Havail; [discriminate |].
  cbn [fst]. intros H. injection H as <-.
  exists acct, assets. repeat split; assumption.
Qed.

End AccountFacts.

Section BalanceFacts.

Variable client : Account.FullClient.

(** X13.  The balances returned hold positive amounts only, and no asset
    name twice. *)
Theorem balances_positive_and_distinct (info : Account.balance_info) :
  Account.result (Account.get_account_balance client) = inr info ->
  Forall (fun kv => Account.positive kv.2 = true) (Account.balances info)
  /\ NoDup (map fst (Account.balances info)).
Proof.
  intros H.
  destruct (get_account_balance_ok client info H)
    as (acct & assets & _ & _ & Hbal & _).
  destruct (positive_balances_spec assets [] _ Hbal) as (H1 & H2 & _).
  split; [apply H1; constructor | apply H2; constructor].
Qed.

(** X14.  Every balance returned is the amount of an asset of the
    exchange's answer under that name; every asset of the answer with a
    positive amount has its name among the balances; the two totals are
    the floats of [totalWalletBalance] and [availableBalance]. *)
Theorem balances_come_from_the_answer (info : Account.balance_info) :
  Account.result (Account.get_account_balance client) = inr info ->
  exists acct assets,
    Account.futures_account client = inr acct
    /\ Account.acc_assets acct = Some assets
    /\ (forall name b,
          (name, b) ∈ Account.balances info ->
          exists asset,
            asset ∈ assets /\ asset !! "asset" = Some name
            /\ Account.float_at asset "walletBalance" = inr b)
    /\ (forall asset name b,
          asset ∈ assets -> asset !! "asset" = Some name ->
          Account.float_at asset "walletBalance" = inr b ->
          Account.positive b = true ->
          name ∈ map fst (Account.balances info))
    /\ Account.float_at (Account.acc_fields acct) "totalWalletBalance"
       = inr (Account.totalBalance info)
    /\ Account.float_at (Account.acc_fields acct) "availableBalance"
       = inr (Account.availableBalance info).
Proof.
  intros H.
  destruct (get_account_balance_ok client info H)
    as (acct & assets & Hacct & Hassets & Hbal & Htotal & Havail).
  destruct (positive_balances_spec assets [] _ Hbal)
    as (_ & _ & H3 & _ & H5).
  exists acct, assets. repeat split; try assumption.
  intros name b Hin. destruct (H3 (name, b) Hin) as [Hnil | Hex].
  - apply elem_of_nil in Hnil. contradiction.
  - exact Hex.
Qed.

(** X15.  The balance query asks the exchange once, whatever happens, and
    an exception of the exchange comes back unchanged. *)
Theorem get_account_balance_asks_once :
  Account.calls (Account.trace (Account.get_account_balance client))
  = [Account.AccountInfo]
  /\ (forall e,
        Account.futures_account client = inl e ->
        Account.result (Account.get_account_balance client) = inl e).
Proof.
  unfold Account.get_account_balance, Account.catch, Account.bind,
    Account.request, Account.lift, Account.log, Account.ret, Account.raise,
    Account.result, Account.trace.
  destruct (Account.futures_account client) as [e | acct].
  - split; [reflexivity |]. intros e' H. injection H as ->. reflexivity.
  - split; [| discriminate].
    destruct (Account.acc_assets acct) as [assets |]; [| reflexivity].
    destruct (Account.positive_balances assets []); [reflexivity |].
    destruct (Account.float_at (Account.acc_fields acct) "totalWalletBalance");
      [reflexivity |].
    destruct (Account.float_at (Account.acc_fields acct) "availableBalance");
      reflexivity.
Qed.

(** X16.  One asset whose [walletBalance] is missing or is no number makes
    the whole balance query raise: there is no partial result. *)
Theorem one_bad_asset_fails_the_query (acct : Account.account_info)
  (assets : list (gmap string string)) (asset : gmap string string)
  (e : Bot.exn) :
  Account.futures_account client = inr acct ->
  Account.acc_assets acct = Some assets ->
  asset ∈ assets ->
  Account.float_at asset "walletBalance" = inl e ->
  exists e', Account.result (Account.get_account_balance client) = inl e'.
Proof.
  intros Hacct Hassets Hin Hbad.
  assert (Hfail : forall acc,
            exists e', Account.positive_balances assets acc = inl e').
  { clear Hassets. induction assets as [| a rest IH]; intros acc.
    - apply elem_of_nil in Hin. contradiction.
    - cbn [Account.positive_balances]. apply elem_of_cons in Hin.
      destruct Hin as [<- | Hin].
      + rewrite Hbad. eexists. reflexivity.
      + destruct (Account.float_at a "walletBalance"); [eexists; reflexivity |].
        destruct (Account.positive f); [| apply IH, Hin].
        destruct (a !! "asset"); [apply IH, Hin | eexists; reflexivity]. }
  destruct (Hfail []) as [e' He'].
  unfold Account.get_account_balance, Account.catch, Account.bind,
    Account.request, Account.lift, Account.log, Account.ret, Account.raise,
    Account.result.
  rewrite Hacct, Hassets, He'. exists e'. reflexivity.
Qed.

(** X17.  The connection test succeeds exactly when the server time call
    answers, the account call answers and the answer's
    [totalWalletBalance] is a number; when the server time call raises, the
    account is not asked and that exception comes back. *)
Theorem test_connection_outcome :
  (Account.result (Account.test_connection client) = inr tt
   <-> exists time acct balance,
         Account.futures_time client = inr time
         /\ Account.futures_account client = inr acct
         /\ Account.float_at (Account.acc_fields acct) "totalWalletBalance"
            = inr balance)
  /\ (forall e,
        Account.futures_time client = inl e ->
        Account.result (Account.test_connection client) = inl e
        /\ Account.calls (Account.trace (Account.test_connection client))
           = [Account.ServerTime]).
Proof.
  unfold Account.test_connection, Account.catch, Account.bind,
    Account.request, Account.lift, Account.log, Account.ret, Account.raise,
    Account.result, Account.trace.
  destruct (Account.futures_time client) as [e | time].
  - split.
    + split; [destruct e; discriminate |].
      intros (t & a & b & Ht & _). discriminate.
    + intros e' H. injection H as ->. destruct e'; split; reflexivity.
  - split; [| discriminate].
    destruct (Account.futures_account client) as [e | acct].
    + split; [destruct e; discriminate |].
      intros (t & a & b & _ & Ha & _). discriminate.
    + destruct (Account.float_at (Account.acc_fields acct)
                  "totalWalletBalance") as [e | balance] eqn:Hb.
      * split; [destruct e; discriminate |].
        intros (t & a & b & _ & Ha & Hf). injection Ha as <-.
        rewrite Hb in Hf. discriminate.
      * split; [| reflexivity]. intros _. exists time, acct, balance.
        repeat split. exact Hb.
Qed.

(** X18.  Start-up gives the constructed client exactly when the
    construction and the connection test both succeed; otherwise it raises
    the exception of the step that failed, and nothing is asked after it. *)
Theorem init_outcome (construct : Bot.exn + Account.FullClient) :
  Account.result (Account.init construct)
  = match construct with
    | inl e => inl e
    | inr c =>
        match Account.result (Account.test_connection c) with
        | inl e => inl e
        | inr _ => inr c
        end
    end
  /\ Account.calls (Account.trace (Account.init construct))
     = match construct with
       | inl _ => [Account.Construct]
       | inr c =>
           Account.Construct
             :: Account.calls (Account.trace (Account.test_connection c))
       end.
Proof.
  assert (Hcalls : forall t1 t2 : list Account.event,
            Account.calls (t1 ++ t2) = Account.calls t1 ++ Account.calls t2).
  { intros t1 t2. induction t1 as [| [e | c] t1 IH]; cbn [Account.calls app];
      [reflexivity | exact IH | rewrite IH; reflexivity]. }
  unfold Account.init, Account.catch, Account.bind, Account.request,
    Account.lift, Account.log, Account.ret, Account.raise, Account.result,
    Account.trace.
  destruct construct as [e | c]; [split; reflexivity |].
  destruct (Account.test_connection c) as [[e | []] t]; cbn [fst snd];
    split; try reflexivity;
    rewrite ?Hcalls; cbn [Account.calls app]; rewrite ?app_nil_r;
    reflexivity.
Qed.

End BalanceFacts.

Lemma balances_positive_and_distinct_witness :
  exists info,
    Account.result (Account.get_account_balance Account.sample_full_client)
    = inr info
    /\ map fst (Account.balances info) = ["USDT"; "BTC"]
    /\ Forall (fun kv => Account.positive kv.2 = true)
         (Account.balances info)
    /\ NoDup (map fst (Account.balances info)).
Proof.
  eexists. split; [vm_compute; reflexivity |].
  split; [vm_compute; reflexivity |].
  apply (balances_positive_and_distinct Account.sample_full_client).
  vm_compute. reflexivity.
Defined.

Lemma balances_come_from_the_answer_witness :
  exists info acct assets,
    Account.result (Account.get_account_balance Account.sample_full_client)
    = inr info
    /\ Account.futures_account Account.sample_full_client = inr acct
    /\ Account.acc_assets acct = Some assets
    /\ (forall name b,
          (name, b) ∈ Account.balances info ->
          exists asset,
            asset ∈ assets /\ asset !! "asset" = Some name
            /\ Account.float_at asset "walletBalance" = inr b).
Proof.
  eexists.
  destruct (balances_come_from_the_answer Account.sample_full_client _
              ltac:(vm_compute; reflexivity))
    as (acct & assets & H1 & H2 & H3 & _).
  exists acct, assets. split; [vm_compute; reflexivity |].
  repeat split; assumption.
Defined.

Lemma one_bad_asset_fails_the_query_witness :
  exists e',
    Account.result (Account.get_account_balance Account.broken_full_client)
    = inl e'.
Proof.
  apply (one_bad_asset_fails_the_query Account.broken_full_client
           Account.broken_account
           [ {[ "asset" := "USDT"; "walletBalance" := "1500.5" ]};
             {[ "asset" := "BNB" ]} ]
           {[ "asset" := "BNB" ]} (Bot.KeyError "walletBalance")).
  - reflexivity.
  - reflexivity.
  - apply elem_of_cons. right. apply elem_of_cons. left. reflexivity.
  - vm_compute. reflexivity.
Defined.

(** ** The interactive shell *)

Section ShellFacts.

Lemma reads_ret {A} (a : A) : Cli.reads_lines (Cli.ret a).
Proof. intros i. exists []. reflexivity. Qed.

Lemma reads_raise {A} (e : Cli.exn) :
  Cli.is_exception e = true -> Cli.reads_lines (Cli.raise (A := A) e).
Proof. intros He i. exists []. destruct e; try discriminate; reflexivity. Qed.

Lemma reads_print (l : Cli.line) : Cli.reads_lines (Cli.print l).
Proof. intros i. exists []. reflexivity. Qed.

Lemma reads_trade {A} (m : Bot.M A) : Cli.reads_lines (Cli.trade m).
Proof. intros i. exists []. destruct m as [[e | a] t]; reflexivity. Qed.

Lemma reads_account {A} (m : Account.M A) : Cli.reads_lines (Cli.account m).
Proof. intros i. exists []. destruct m as [[e | a] t]; reflexivity. Qed.

Lemma reads_input (prompt : string) : Cli.reads_lines (Cli.input prompt).
Proof.
  intros [| [l |] i]; [exists [] | exists [l] | exists []]; reflexivity.
Qed.

Lemma reads_bind {A B} (m : Cli.IO A) (f : A -> Cli.IO B) :
  Cli.reads_lines m -> (forall a, Cli.reads_lines (f a)) ->
  Cli.reads_lines (Cli.bind m f).
Proof.
  intros Hm Hf i. unfold Cli.bind.
  destruct (Hm i) as [l1 H1].
  destruct (m i) as [[[e | a] i1] t1]; cbn [fst snd] in *.
  - exists l1. exact H1.
  - cbn [Cli.interrupted app] in H1.
    destruct (Hf a i1) as [l2 H2].
    destruct (f a i1) as [[r i2] t2]. cbn [fst snd] in *.
    exists (l1 ++ l2). rewrite map_app, <- app_assoc, <- H2. exact H1.
Qed.

Lemma reads_catch {A} (m : Cli.IO A) (h : Cli.exn -> Cli.IO A) :
  Cli.reads_lines m -> (forall e, Cli.reads_lines (h e)) ->
  Cli.reads_lines (Cli.catch m h).
Proof.
  intros Hm Hh i. unfold Cli.catch.
  destruct (Hm i) as [l1 H1].
  destruct (m i) as [[[e | a] i1] t1]; cbn [fst snd] in *;
    [| exists l1; exact H1].
  destruct (Cli.is_exception e) eqn:He; [| exists l1; exact H1].
  assert (Hi : Cli.interrupted (inl (B := A) e) = false)
    by (destruct e; try discriminate; reflexivity).
  rewrite Hi in H1. cbn [app] in H1.
  destruct (Hh e i1) as [l2 H2].
  destruct (h e i1) as [[r i2] t2]. cbn [fst snd] in *.
  exists (l1 ++ l2). rewrite map_app, <- app_assoc, <- H2. exact H1.
Qed.

Lemma reads_to_float (s : string) : Cli.reads_lines (Cli.to_float s).
Proof.
  unfold Cli.to_float.
  destruct (Cli.float_of_text s);
    [apply reads_ret | apply reads_raise; reflexivity].
Qed.

Lemma reads_to_int (s : string) : Cli.reads_lines (Cli.to_int s).
Proof.
  unfold Cli.to_int.
  destruct (Cli.int_of_text s);
    [apply reads_ret | apply reads_raise; reflexivity].
Qed.

Lemma reads_print_all (ls : list Cli.line) :
  Cli.reads_lines (Cli.print_all ls).
Proof.
  induction ls as [| l ls IH]; cbn [Cli.print_all]; [apply reads_ret |].
  apply reads_bind; [apply reads_print | intros _; exact IH].
Qed.

Ltac reads :=
  repeat first
    [ assumption | apply reads_catch | apply reads_bind | apply reads_input
    | apply reads_print | apply reads_ret
    | apply reads_trade | apply reads_account | apply reads_to_float
    | apply reads_to_int | apply reads_print_all
    | match goal with |- forall _, _ => intro end ].

Lemma reads_lines_forward {A} (m : Cli.IO A) :
  Cli.reads_lines m -> Cli.reads_forward m.
Proof.
  intros H i. destruct (H i) as [lines Hl].
  eexists. rewrite app_assoc in Hl. exact Hl.
Qed.

Lemma reads_catch_interrupt {A} (m k : Cli.IO A) (h : Cli.exn -> Cli.IO A) :
  Cli.reads_forward m -> Cli.reads_forward k ->
  (forall e, Cli.reads_forward (h e)) ->
  Cli.reads_forward (Cli.catch_interrupt m k h).
Proof.
  intros Hm Hk Hh i. unfold Cli.catch_interrupt.
  destruct (Hm i) as [pre Hpre].
  destruct (m i) as [[[e | a] i1] t1]; cbn [fst snd] in *;
    [| exists pre; exact Hpre].
  assert (H2 : exists pre2,
             i1 = pre2
                  ++ snd (fst ((if Cli.is_exception e then h e else k) i1)))
    by (destruct (Cli.is_exception e); [apply Hh | apply Hk]).
  destruct H2 as [pre2 H2].
  destruct ((if Cli.is_exception e then h e else k) i1) as [[r i2] t2].
  cbn [fst snd] in *.
  exists (pre ++ pre2). rewrite <- app_assoc, <- H2. exact Hpre.
Qed.

Variable bot : Account.FullClient.

Lemma reads_handlers :
  Forall (fun h : Cli.IO unit => Cli.reads_lines h)
    [ Cli.handle_market_order bot; Cli.handle_limit_order bot;
      Cli.handle_stop_order bot; Cli.handle_cancel_order bot;
      Cli.handle_show_orders bot; Cli.handle_show_balance bot;
      Cli.handle_get_price bot ].
Proof.
  repeat constructor.
  - unfold Cli.handle_market_order. reads.
  - unfold Cli.handle_limit_order. reads.
  - unfold Cli.handle_stop_order. reads.
  - unfold Cli.handle_cancel_order. reads.
  - unfold Cli.handle_show_orders. reads.
    match goal with |- Cli.reads_lines (match ?x with _ => _ end) =>
      destruct x end; reads.
  - unfold Cli.handle_show_balance. reads.
    match goal with |- Cli.reads_lines (match ?x with _ => _ end) =>
      destruct x end; reads.
  - unfold Cli.handle_get_price. reads.
Qed.

Lemma reads_read_command : Cli.reads_lines (Cli.read_command bot).
Proof.
  pose proof reads_handlers as H.
  repeat (apply Forall_cons in H; destruct H as [? H]).
  unfold Cli.read_command. reads.
  repeat match goal with
         | |- Cli.reads_lines (if ?c then _ else _) => destruct c
         end; reads.
Qed.

Lemma reads_turn : Cli.reads_forward (Cli.turn bot).
Proof.
  unfold Cli.turn. apply reads_catch_interrupt.
  - apply reads_lines_forward, reads_read_command.
  - apply reads_lines_forward. reads.
  - intros e. apply reads_lines_forward. reads.
Qed.



End ShellFacts.

Section LoopFacts.

Lemma trading_calls_app (t1 t2 : list Cli.event) :
  Cli.trading_calls (t1 ++ t2)
  = Cli.trading_calls t1 ++ Cli.trading_calls t2.
Proof.
  induction t1 as [| e t1 IH]; [reflexivity |].
  destruct e as [[[c | l] | c] | s | l]; cbn [Cli.trading_calls app];
    rewrite ?IH; reflexivity.
Qed.

Lemma trading_calls_trade (t : list Bot.event) :
  Cli.trading_calls (map (fun e => Cli.Bot (Account.Trading e)) t)
  = Bot.calls t.
Proof.
  induction t as [| [c | l] t IH]; cbn [map Cli.trading_calls Bot.calls];
    rewrite ?IH; reflexivity.
Qed.

Variable bot : Account.FullClient.

Lemma print_all_run (ls : list Cli.line) (i : list Cli.key) :
  Cli.print_all ls i = (inr tt, i, map Cli.Print ls).
Proof.
  induction ls as [| l ls IH]; [reflexivity |].
  cbn [Cli.print_all map]. unfold Cli.bind, Cli.print. rewrite IH.
  reflexivity.
Qed.

Lemma trading_calls_print (ls : list Cli.line) :
  Cli.trading_calls (map Cli.Print ls) = [].
Proof. induction ls as [| l ls IH]; [reflexivity | exact IH]. Qed.

(** X20.  The order list handler asks for all open orders when the line
    typed is blank, and otherwise for the symbol typed with the blanks
    around it removed and its case kept. *)
Theorem show_orders_filter (l : string) (rest : list Cli.key) :
  Cli.trading_calls (snd (Cli.handle_show_orders bot (Cli.Line l :: rest)))
  = [Bot.GetOpenOrders (if is_empty (strip l) then None else Some (strip l))]
  /\ snd (fst (Cli.handle_show_orders bot (Cli.Line l :: rest))) = rest.
Proof.
  unfold Cli.handle_show_orders, Cli.catch, Cli.bind, Cli.input, Cli.trade,
    Cli.print, Bot.get_open_orders, Bot.catch, Bot.bind, Bot.request,
    Bot.log, Bot.ret, Bot.raise.
  destruct (Bot.futures_get_open_orders (Account.trading bot)
              (if is_empty (strip l) then None else Some (strip l)))
    as [e | [| o orders]];
    cbn [fst snd map app Cli.is_exception]; try (split; reflexivity).
  rewrite print_all_run. cbn [fst snd app]. split; [| reflexivity].
  cbn [Cli.trading_calls]. rewrite trading_calls_print. reflexivity.
Qed.

(** X21.  The stop-order handler reads the stop price before the limit
    price and hands them over in the order the bot expects: the request
    sent carries the limit price typed as its price and the stop price
    typed as its stop price, with the symbol and the side stripped and in
    upper case. *)
Theorem stop_handler_passes_prices (sym side q stop limit : string)
  (rest : list Cli.key) (Q S L : PyFloat.float) :
  Cli.float_of_text q = Some Q ->
  Cli.float_of_text stop = Some S ->
  Cli.float_of_text limit = Some L ->
  exists qty,
    Bot.requests
      (Cli.trading_calls
         (snd (Cli.handle_stop_order bot
                 (Cli.Line sym :: Cli.Line side :: Cli.Line q
                  :: Cli.Line stop :: Cli.Line limit :: rest))))
    = [ {| Bot.o_symbol := upper (strip sym);
           Bot.o_side := upper (strip side); Bot.o_type := "STOP";
           Bot.o_quantity := qty; Bot.o_price := Some (PyFloat.repr L);
           Bot.o_stopPrice := Some (PyFloat.repr S);
           Bot.o_timeInForce := Some "GTC" |} ]
    /\ snd (fst (Cli.handle_stop_order bot
                   (Cli.Line sym :: Cli.Line side :: Cli.Line q
                    :: Cli.Line stop :: Cli.Line limit :: rest))) = rest.
Proof.
  intros Hq Hs Hl.
  destruct (place_stop_limit_order_calls (Account.trading bot) (strip sym)
              (upper (strip side)) Q L S None) as (qty & _ & Hcalls).
  rewrite !upper_idempotent in Hcalls. exists qty.
  unfold Cli.handle_stop_order, Cli.catch, Cli.bind, Cli.input, Cli.to_float,
    Cli.trade, Cli.print, Cli.ret, Cli.raise.
  rewrite Hq. cbv beta iota. rewrite Hs. cbv beta iota. rewrite Hl.
  cbv beta iota. unfold Bot.trace in Hcalls.
  destruct (Bot.place_stop_limit_order (Account.trading bot) (strip sym)
              (upper (strip side)) Q L S None) as [[e | o] t];
    cbn [fst snd app Cli.trading_calls Cli.is_exception] in *;
    rewrite trading_calls_app, trading_calls_trade, Hcalls;
    split; reflexivity.
Qed.

(** X22.  A quantity typed that [float] does not read stops the
    market-order handler before anything is asked of the exchange: after
    the three prompts it prints its failure line, which carries the
    [ValueError] of [float] for the text typed, and the lines behind are
    left unread.  A price that [float] does not read stops the limit-order
    handler in the same way, with nothing asked of the exchange. *)
Theorem bad_number_asks_nothing (sym side q p : string)
  (rest : list Cli.key) :
  (Cli.is_ascii q = true -> Cli.float_of_text q = None ->
   Cli.handle_market_order bot
     (Cli.Line sym :: Cli.Line side :: Cli.Line q :: rest)
   = (inr tt, rest,
      [ Cli.Prompt "Symbol (e.g., BTCUSDT): "; Cli.Prompt "Side (BUY/SELL): ";
        Cli.Prompt "Quantity: ";
        Cli.Print
          (Cli.Failure "Failed to place market order" (Cli.NotAFloat q)) ]))
  /\ (Cli.is_ascii p = true -> Cli.float_of_text p = None ->
      Cli.trading_calls
        (snd (Cli.handle_limit_order bot
                (Cli.Line sym :: Cli.Line side :: Cli.Line q :: Cli.Line p
                 :: rest)))
      = []
      /\ exists left,
           snd (fst (Cli.handle_limit_order bot
                       (Cli.Line sym :: Cli.Line side :: Cli.Line q
                        :: Cli.Line p :: rest))) = left
           /\ (left = rest \/ left = Cli.Line p :: rest)).
Proof.
  split.
  - intros _ Hq.
    unfold Cli.handle_market_order, Cli.catch, Cli.bind, Cli.input,
      Cli.to_float, Cli.trade, Cli.print, Cli.ret, Cli.raise.
    rewrite Hq. reflexivity.
  - intros _ Hp.
    unfold Cli.handle_limit_order, Cli.catch, Cli.bind, Cli.input,
      Cli.to_float, Cli.trade, Cli.print, Cli.ret, Cli.raise.
    destruct (Cli.float_of_text q) as [Q |]; cbv beta iota.
    + rewrite Hp. cbv beta iota. cbn [fst snd app Cli.is_exception].
      split; [reflexivity |]. eexists. split; [reflexivity |]. left.
      reflexivity.
    + cbn [fst snd app Cli.is_exception]. split; [reflexivity |]. eexists.
      split; [reflexivity |]. right. reflexivity.
Qed.

Lemma read_command_breaks (i i' : list Cli.key) (t : list Cli.event) :
  Cli.read_command bot i = (inr true, i', t) ->
  exists l, i = Cli.Line l :: i' /\ lower (strip l) = "quit".
Proof.
  destruct i as [| [l |] rest]; [discriminate | | discriminate].
  unfold Cli.read_command, Cli.bind, Cli.input, Cli.print, Cli.ret.
  cbv beta iota.
  destruct (String.eqb (lower (strip l)) "quit") eqn:E.
  - intros H. injection H as <- <-. exists l. split; [reflexivity |].
    apply String.eqb_eq, E.
  - repeat match goal with
           | |- context [if ?c then _ else _] => destruct c
           end;
      try discriminate;
      match goal with
      | |- context [?h bot rest] =>
          destruct (h bot rest) as [[[e | u] i1] t1]
      end; discriminate.
Qed.

Lemma turn_breaks (i i' : list Cli.key) (t : list Cli.event) :
  Cli.turn bot i = (inr true, i', t) ->
  (exists l, i = Cli.Line l :: i' /\ lower (strip l) = "quit")
  \/ Cli.CtrlC ∈ i.
Proof.
  unfold Cli.turn, Cli.catch_interrupt.
  destruct (reads_read_command bot i) as [lines Hl].
  destruct (Cli.read_command bot i) as [[[e | b] i1] t1] eqn:Hc;
    cbn [fst snd] in Hl.
  - destruct e; cbn [Cli.is_exception]; try discriminate.
    intros _. right. rewrite Hl. cbn [Cli.interrupted].
    apply elem_of_app. right. apply elem_of_cons. left. reflexivity.
  - intros H. injection H as -> <- <-. left.
    apply (read_command_breaks _ _ _ Hc).
Qed.

Lemma loop_break_reads_quit :
  forall fuel i i' t,
    Cli.loop bot fuel i = Some (i', t) ->
    (exists l, Cli.Line l ∈ i /\ lower (strip l) = "quit")
    \/ Cli.CtrlC ∈ i.
Proof.
  induction fuel as [| fuel IH]; intros i i' t; [discriminate |].
  cbn [Cli.loop].
  destruct (Cli.turn bot i) as [[r i1] t1] eqn:Hturn.
  assert (Hrest :
    match Cli.loop bot fuel i1 with
    | Some (i'', t') => Some (i'', t1 ++ t')
    | None => None
    end = Some (i', t) ->
    (exists l, Cli.Line l ∈ i /\ lower (strip l) = "quit")
    \/ Cli.CtrlC ∈ i).
  { destruct (Cli.loop bot fuel i1) as [[i2 t2] |] eqn:Hloop;
      [| discriminate].
    intros _.
    destruct (reads_turn bot i) as [pre Hpre].
    rewrite Hturn in Hpre. cbn [fst snd] in Hpre.
    destruct (IH _ _ _ Hloop) as [(l & Hin & Hquit) | Hin].
    - left. exists l. split; [| exact Hquit].
      rewrite Hpre. apply elem_of_app. right. exact Hin.
    - right. rewrite Hpre. apply elem_of_app. right. exact Hin. }
  destruct r as [e | [|]]; [exact Hrest | | exact Hrest].
  intros _. destruct (turn_breaks _ _ _ Hturn) as [(l & -> & Hquit) | Hin].
  - left. exists l.
    split; [apply elem_of_cons; left; reflexivity | exact Hquit].
  - right. exact Hin.
Qed.

(** X23.  The loop of the shell ends in two ways only: by reading the
    command [quit], in any case and with blanks around it allowed, or by
    Ctrl-C.  When it has ended, a line of the input was [quit] or the input
    held a Ctrl-C.  At the end of the input it does not end: it reports the
    error and prompts again, for any number of turns.  Ctrl-C at the command
    prompt ends it with the farewell on a line of its own, and so does
    Ctrl-C at the first prompt of the market-order handler. *)
Theorem loop_ends_on_quit_or_interrupt :
  (forall fuel i i' t,
      Cli.loop bot fuel i = Some (i', t) ->
      (exists l, Cli.Line l ∈ i /\ lower (strip l) = "quit")
      \/ Cli.CtrlC ∈ i)
  /\ (forall fuel, Cli.loop bot fuel [] = None)
  /\ (forall fuel rest,
        Cli.loop bot (S fuel) (Cli.CtrlC :: rest)
        = Some (rest,
                [ Cli.Prompt (Cli.nl +:+ "Enter command: ");
                  Cli.Print (Cli.Text (Cli.nl +:+ "Goodbye!")) ]))
  /\ (forall fuel l rest,
        lower (strip l) = "market" ->
        Cli.loop bot (S fuel) (Cli.Line l :: Cli.CtrlC :: rest)
        = Some (rest,
                [ Cli.Prompt (Cli.nl +:+ "Enter command: ");
                  Cli.Prompt "Symbol (e.g., BTCUSDT): ";
                  Cli.Print (Cli.Text (Cli.nl +:+ "Goodbye!")) ])).
Proof.
  split; [exact loop_break_reads_quit |]. split; [| split].
  - intros fuel. destruct (Cli.loop bot fuel []) as [[i' t] |] eqn:E;
      [| reflexivity].
    destruct (loop_break_reads_quit _ _ _ _ E) as [(l & Hin & _) | Hin];
      apply elem_of_nil in Hin; contradiction.
  - intros fuel rest. reflexivity.
  - intros fuel l rest H. cbn [Cli.loop].
    unfold Cli.turn, Cli.catch_interrupt, Cli.read_command, Cli.bind,
      Cli.input.
    cbv beta iota. rewrite H. reflexivity.
Qed.

(** X24.  The command [quit], in any case and with blanks around it
    allowed, ends the shell at once: after the banner and the prompt it
    prints its farewell, asks nothing of the exchange and leaves the rest of
    the input unread. *)
Theorem quit_ends_the_shell (l : string) (rest : list Cli.key) (fuel : nat) :
  lower (strip l) = "quit" ->
  Cli.run_interactive_mode bot (S fuel) (Cli.Line l :: rest)
  = Some (rest,
          map Cli.Print Cli.banner
            ++ [ Cli.Prompt (Cli.nl +:+ "Enter command: ");
                 Cli.Print (Cli.Text "Goodbye!") ]).
Proof.
  intros H.
  unfold Cli.run_interactive_mode. cbn [Cli.loop].
  unfold Cli.turn, Cli.catch_interrupt, Cli.read_command, Cli.bind,
    Cli.input, Cli.print, Cli.ret.
  cbv beta iota. rewrite H. reflexivity.
Qed.

(** X25.  A line that is none of the eight command words gets the answer
    that the command is unknown; nothing else is read, nothing is asked of
    the exchange, and the loop goes on. *)
Theorem unknown_command_is_reported (l : string) (rest : list Cli.key) :
  Forall (fun k => lower (strip l) <> k) Cli.keywords ->
  Cli.turn bot (Cli.Line l :: rest)
  = (inr false, rest,
     [ Cli.Prompt (Cli.nl +:+ "Enter command: ");
       Cli.Print (Cli.Text "Unknown command. Try again.") ]).
Proof.
  intros H. unfold Cli.keywords in H.
  repeat match type of H with
         | Forall _ (_ :: _) =>
             apply Forall_cons in H;
             let Hk := fresh "Hk" in
             destruct H as [Hk H]; apply String.eqb_neq in Hk
         end.
  unfold Cli.turn, Cli.catch_interrupt, Cli.read_command, Cli.bind,
    Cli.input, Cli.print, Cli.ret.
  cbv beta iota.
  repeat match goal with
         | Hk : String.eqb _ _ = false |- _ => rewrite Hk; clear Hk
         end.
  reflexivity.
Qed.

End LoopFacts.

Section MainFacts.


End MainFacts.

(** ** The properties at work on the sample exchanges *)

Lemma get_symbol_info_found_witness :
  exists si infos,
    result (get_symbol_info (sample_client "0.001") "btcusdt") = inr si
    /\ futures_exchange_info (sample_client "0.001") = inr infos
    /\ In si infos
    /\ si_symbol si = "BTCUSDT".
Proof.
  eexists.
  destruct (get_symbol_info_found (sample_client "0.001") "btcusdt" _
              ltac:(vm_compute; reflexivity)) as (infos & H1 & H2 & H3).
  exists infos. split; [vm_compute; reflexivity |].
  repeat split; assumption.
Defined.

Lemma get_symbol_info_missing_witness :
  get_symbol_info (sample_client "0.001") "dogeusdt"
  = (inl (ValueError "Symbol dogeusdt not found"),
     [Call ExchangeInfo; Log ERROR]).
Proof.
  eapply (get_symbol_info_missing (sample_client "0.001") "dogeusdt").
  - reflexivity.
  - repeat constructor; vm_compute; discriminate.
Defined.


Lemma format_quantity_malformed_filter_witness :
  format_quantity Samples.malformed_client "xrpusdt" f_5_9
  = (inr "5.9", [Call ExchangeInfo; Log ERROR]).
Proof.
  change (inr "5.9") with (inr (A := exn) (PyFloat.repr f_5_9)).
  eapply (format_quantity_malformed_filter Samples.malformed_client "xrpusdt"
            f_5_9 _ _
            [ {[ "filterType" := "PRICE_FILTER"; "tickSize" := "0.0001" ]} ]
            [ {[ "filterType" := "LOT_SIZE"; "stepSize" := "0.1" ]} ]
            {[ "tickSize" := "0.0001" ]}).
  - reflexivity.
  - vm_compute. reflexivity.
  - reflexivity.
  - repeat constructor. exists "PRICE_FILTER".
    split; [vm_compute; reflexivity | discriminate].
  - vm_compute. reflexivity.
Defined.

Lemma invalid_side_is_rejected_locally_witness :
  result (place_market_order (sample_client "0.001") "BTCUSDT" "hold" f_5_9)
  = inl (ValueError "Side must be 'BUY' or 'SELL'")
  /\ calls (trace (place_market_order (sample_client "0.001") "BTCUSDT"
                     "hold" f_5_9)) = []
  /\ result (place_limit_order (sample_client "0.001") "BTCUSDT" "hold"
               f_5_9 f_5_9 None)
     = inl (ValueError "Side must be 'BUY' or 'SELL'")
  /\ calls (trace (place_limit_order (sample_client "0.001") "BTCUSDT"
                     "hold" f_5_9 f_5_9 None)) = [].
Proof.
  apply (invalid_side_is_rejected_locally (sample_client "0.001") "BTCUSDT"
           "hold" f_5_9 f_5_9 None).
  vm_compute. reflexivity.
Defined.

Lemma placed_order_returns_exchange_answer_witness :
  result (place_market_order Samples.malformed_client "xrpusdt" "sell" f_5_9)
  = inl (BinanceAPIException (-2019) "Margin is insufficient.").
Proof.
  destruct (placed_order_returns_exchange_answer Samples.malformed_client
              "xrpusdt" "sell" f_5_9 f_5_9 f_5_9 None
              ltac:(vm_compute; reflexivity)) as (qty & _ & H & _).
  rewrite H. reflexivity.
Defined.

Lemma get_current_price_reads_ticker_witness :
  (exists ticker,
      futures_symbol_ticker (sample_client "0.001") (upper "btcusdt")
      = inr ticker
      /\ PyFloat.of_string ticker
         = Some (PyFloat.Finite false 6871961417495347 (-37)))
  /\ exists msg,
       get_current_price Samples.malformed_client "xrpusdt"
       = (inl (ValueError msg), [Call (SymbolTicker "XRPUSDT"); Log ERROR]).
Proof.
  split.
  - apply (proj1 (get_current_price_reads_ticker (sample_client "0.001")
                    "btcusdt")).
    vm_compute. reflexivity.
  - apply (proj2 (get_current_price_reads_ticker Samples.malformed_client
                    "xrpusdt") "n/a").
    + reflexivity.
    + vm_compute. reflexivity.
Defined.

Lemma failure_is_logged_witness :
  last (trace (place_market_order offline_client "BTCUSDT" "BUY" f_5_9))
  = Some (Log ERROR)
  /\ last (trace (cancel_order offline_client "BTCUSDT" 7)) = Some (Log ERROR).
Proof.
  pose proof (failure_is_logged offline_client "BTCUSDT" "BUY" f_5_9 f_5_9
                f_5_9 None None 7 (TransportError "timeout"))
    as (_ & _ & Hm & _ & _ & Hc & _).
  split; [apply Hm | apply Hc]; vm_compute; reflexivity.
Defined.

Lemma get_account_balance_asks_once_witness :
  Account.result (Account.get_account_balance Account.offline_full_client)
  = inl (TransportError "timeout").
Proof.
  apply (proj2 (get_account_balance_asks_once Account.offline_full_client)).
  reflexivity.
Defined.

Lemma test_connection_outcome_witness :
  Account.result (Account.test_connection Account.sample_full_client)
  = inr tt
  /\ Account.calls
       (Account.trace (Account.test_connection Account.offline_full_client))
     = [Account.ServerTime].
Proof.
  split.
  - apply (proj1 (test_connection_outcome Account.sample_full_client)).
    eexists _, _, _. repeat split; vm_compute; reflexivity.
  - apply (proj2 (test_connection_outcome Account.offline_full_client)
             (TransportError "timeout")).
    reflexivity.
Defined.

Lemma stop_handler_passes_prices_witness :
  exists qty,
    Bot.requests
      (Cli.trading_calls
         (snd (Cli.handle_stop_order Account.sample_full_client
                 [ Cli.Line " btcusdt "; Cli.Line "sell"; Cli.Line "5.9";
                   Cli.Line "1.234"; Cli.Line "1.23456"; Cli.Line "quit" ])))
    = [ {| o_symbol := "BTCUSDT"; o_side := "SELL"; o_type := "STOP";
           o_quantity := qty; o_price := Some "1.23456";
           o_stopPrice := Some "1.234"; o_timeInForce := Some "GTC" |} ]
    /\ snd (fst (Cli.handle_stop_order Account.sample_full_client
                   [ Cli.Line " btcusdt "; Cli.Line "sell"; Cli.Line "5.9";
                     Cli.Line "1.234"; Cli.Line "1.23456";
                     Cli.Line "quit" ]))
       = [Cli.Line "quit"].
Proof.
  destruct (stop_handler_passes_prices Account.sample_full_client
              " btcusdt " "sell" "5.9" "1.234" "1.23456" [Cli.Line "quit"]
              f_5_9 f_1_234 f_1_23456
              ltac:(vm_compute; reflexivity) ltac:(vm_compute; reflexivity)
              ltac:(vm_compute; reflexivity)) as (qty & H1 & H2).
  exists qty. split; [| exact H2].
  rewrite H1. vm_compute. reflexivity.
Defined.

Lemma bad_number_asks_nothing_witness :
  Cli.printed
    (snd (Cli.handle_market_order Account.sample_full_client
            [ Cli.Line "BTCUSDT"; Cli.Line "BUY"; Cli.Line "five";
              Cli.Line "quit" ]))
  = [Cli.Failure "Failed to place market order" (Cli.NotAFloat "five")]
  /\ Cli.trading_calls
       (snd (Cli.handle_market_order Account.sample_full_client
               [ Cli.Line "BTCUSDT"; Cli.Line "BUY"; Cli.Line "five";
                 Cli.Line "quit" ])) = []
  /\ snd (fst (Cli.handle_market_order Account.sample_full_client
                 [ Cli.Line "BTCUSDT"; Cli.Line "BUY"; Cli.Line "five";
                   Cli.Line "quit" ])) = [Cli.Line "quit"].
Proof.
  rewrite (proj1 (bad_number_asks_nothing Account.sample_full_client
                    "BTCUSDT" "BUY" "five" "" [Cli.Line "quit"])).
  - repeat split; reflexivity.
  - vm_compute. reflexivity.
  - vm_compute. reflexivity.
Defined.

Lemma loop_ends_on_quit_or_interrupt_witness :
  exists i' t,
    Cli.loop Account.sample_full_client 3%nat
      [Cli.Line "help"; Cli.Line "price"; Cli.CtrlC; Cli.Line "quit"]
    = Some (i', t)
    /\ ((exists l,
           Cli.Line l
           ∈ [Cli.Line "help"; Cli.Line "price"; Cli.CtrlC; Cli.Line "quit"]
           /\ lower (strip l) = "quit")
        \/ Cli.CtrlC
           ∈ [Cli.Line "help"; Cli.Line "price"; Cli.CtrlC; Cli.Line "quit"]).
Proof.
  eexists _, _. split; [vm_compute; reflexivity |].
  apply (proj1 (loop_ends_on_quit_or_interrupt Account.sample_full_client)
           3%nat
           [Cli.Line "help"; Cli.Line "price"; Cli.CtrlC; Cli.Line "quit"]
           _ _ ltac:(vm_compute; reflexivity)).
Defined.

Lemma quit_ends_the_shell_witness :
  Cli.run_interactive_mode Account.offline_full_client 1%nat
    [Cli.Line " QUIT"; Cli.Line "market"]
  = Some ([Cli.Line "market"],
          map Cli.Print Cli.banner
            ++ [ Cli.Prompt (Cli.nl +:+ "Enter command: ");
                 Cli.Print (Cli.Text "Goodbye!") ]).
Proof.
  apply (quit_ends_the_shell Account.offline_full_client " QUIT"
           [Cli.Line "market"] 0%nat).
  vm_compute. reflexivity.
Defined.

Lemma unknown_command_is_reported_witness :
  Cli.turn Account.offline_full_client [Cli.Line "help"; Cli.Line "quit"]
  = (inr false, [Cli.Line "quit"],
     [ Cli.Prompt (Cli.nl +:+ "Enter command: ");
       Cli.Print (Cli.Text "Unknown command. Try again.") ]).
Proof.
  apply (unknown_command_is_reported Account.offline_full_client "help"
           [Cli.Line "quit"]).
  repeat constructor; vm_compute; discriminate.
Defined.


(** ** Stripping keeps the number *)

Section StripFacts.

Lemma rstrip_zeros_decomp (s : string) :
  exists k, s = rstrip "0" s +:+ repeat "0" k.
Proof.
  induction s as [| a s [k IH]]; [exists O; reflexivity |].
  cbn [rstrip].
  destruct (is_empty (rstrip "0" s)) eqn:E.
  - apply is_empty_true in E. rewrite E in *. rewrite app_nil in IH.
    destruct (Ascii.eqb a "0") eqn:Ea; cbn [andb].
    + apply Ascii.eqb_eq in Ea. subst a. exists (S k).
      rewrite app_nil. cbn [repeat]. rewrite <- IH. reflexivity.
    + exists k. rewrite app_cons, app_nil, <- IH. reflexivity.
  - cbn [andb]. exists k. rewrite app_cons, <- IH. reflexivity.
Qed.

Lemma to_Z_acc_app (s1 s2 : string) :
  forall acc, to_Z_acc (s1 +:+ s2) acc = to_Z_acc s2 (to_Z_acc s1 acc).
Proof.
  induction s1 as [| a s1 IH]; intros acc; [reflexivity |].
  rewrite app_cons. cbn [to_Z_acc]. apply IH.
Qed.

Lemma to_Z_acc_zeros (k : nat) :
  forall acc, to_Z_acc (repeat "0" k) acc = acc * 10 ^ Z.of_nat k.
Proof.
  induction k as [| k IH]; intros acc.
  - cbn [repeat to_Z_acc]. change (10 ^ Z.of_nat 0) with 1. lia.
  - cbn [repeat to_Z_acc]. rewrite IH.
    change (digit_val "0") with 0.
    rewrite Nat2Z.inj_succ, Z.pow_succ_r by lia. lia.
Qed.

Lemma frac_digits_length (p : nat) :
  forall v acc,
    String.length (PyFloat.frac_digits p v acc)
    = (p + String.length acc)%nat.
Proof.
  induction p as [| p IH]; intros v acc; cbn [PyFloat.frac_digits];
    [reflexivity |].
  rewrite IH. cbn [String.length]. lia.
Qed.

(** What [rstrip('0').rstrip('.')] leaves of digits, a point and digits. *)
Lemma strip_fixed_form (neg : bool) (ip fp : string) :
  is_empty ip = false -> all_digits ip = true -> all_digits fp = true ->
  rstrip "." (rstrip "0" (PyFloat.sign_str neg +:+ ip +:+ String "." fp))
  = PyFloat.sign_str neg +:+ ip
      +:+ (if is_empty (rstrip "0" fp) then EmptyString
           else String "." (rstrip "0" fp)).
Proof.
  intros Hne Hip Hfp.
  set (r := rstrip "0" fp).
  assert (Hr : all_digits r = true) by (apply all_digits_rstrip, Hfp).
  assert (H0 : rstrip "0" (PyFloat.sign_str neg +:+ ip +:+ String "." fp)
               = PyFloat.sign_str neg +:+ ip +:+ String "." r).
  { rewrite rstrip_app.
    assert (Hin : rstrip "0" (ip +:+ String "." fp) = ip +:+ String "." r).
    { rewrite rstrip_app. cbn [rstrip]. fold r.
      change (Ascii.eqb "." "0") with false. rewrite andb_false_r.
      reflexivity. }
    rewrite Hin, is_empty_app, Hne. reflexivity. }
  rewrite H0.
  assert (Hipdot : rstrip "." ip = ip).
  { apply rstrip_absent, all_digits_contains; [reflexivity | exact Hip]. }
  assert (Hrdot : rstrip "." r = r).
  { apply rstrip_absent, all_digits_contains; [reflexivity | exact Hr]. }
  rewrite rstrip_app.
  destruct (is_empty r) eqn:Er.
  - apply is_empty_true in Er. rewrite Er.
    assert (Hin : rstrip "." (ip +:+ String "." "") = ip).
    { rewrite rstrip_app. cbn [rstrip is_empty]. rewrite Ascii.eqb_refl.
      cbn [andb is_empty]. exact Hipdot. }
    rewrite Hin, Hne, app_empty_r. reflexivity.
  - assert (Hin : rstrip "." (ip +:+ String "." r) = ip +:+ String "." r).
    { rewrite rstrip_app. cbn [rstrip]. rewrite Hrdot, Er.
      cbn [andb is_empty]. reflexivity. }
    rewrite Hin, is_empty_app, Hne. reflexivity.
Qed.

(** X27.  With a precision of at least one, stripping changes the text of a
    printed finite quantity but not its number: sign and whole part stay, the
    fractional digits lose their trailing zeros and nothing else, and the
    point goes only when no fractional digit is left. *)
Theorem stripping_keeps_the_number (neg : bool) (m e : Z) (p : nat) :
  exists ip fp fp' k,
    PyFloat.format_f (PyFloat.Finite neg m e) (S p)
    = PyFloat.sign_str neg +:+ ip +:+ String "." fp
    /\ all_digits ip = true /\ is_empty ip = false
    /\ all_digits fp = true /\ String.length fp = S p
    /\ fp = fp' +:+ repeat "0" k
    /\ rstrip "." (rstrip "0"
                     (PyFloat.format_f (PyFloat.Finite neg m e) (S p)))
       = PyFloat.sign_str neg +:+ ip
           +:+ (if is_empty fp' then EmptyString else String "." fp')
    /\ to_Z (ip +:+ fp) = to_Z (ip +:+ fp') * 10 ^ Z.of_nat k.
Proof.
  cbv beta iota zeta delta [PyFloat.format_f].
  set (r := PyFloat.scaled_round m e (S p)).
  set (ip := of_Z (r / 10 ^ Z.of_nat (S p))).
  set (fp := PyFloat.frac_digits (S p) r EmptyString).
  destruct (rstrip_zeros_decomp fp) as [k Hk].
  assert (Hip : all_digits ip = true) by apply all_digits_of_Z.
  assert (Hne : is_empty ip = false) by apply of_Z_nonempty.
  assert (Hfp : all_digits fp = true)
    by (apply all_digits_frac_digits; reflexivity).
  exists ip, fp, (rstrip "0" fp), k.
  split; [reflexivity |]. split; [exact Hip |]. split; [exact Hne |].
  split; [exact Hfp |].
  split; [unfold fp; rewrite frac_digits_length; cbn [String.length]; lia |].
  split; [exact Hk |].
  split; [apply strip_fixed_form; assumption |].
  unfold to_Z. rewrite Hk at 1.
  rewrite !to_Z_acc_app, to_Z_acc_zeros. reflexivity.
Qed.

End StripFacts.
